(** * Job Manager low-level APIs (mali_kbase_jm.h)

    A shallow embedding of the inline helpers of
    [drivers/gpu/vithar/kbase/src/common/mali_kbase_jm.h]: the per-slot
    ring of submitted atoms and the check that a job slot can take one
    more atom, followed by the properties the design document states
    about them. *)

From Stdlib Require Import ZArith Lia Bool.
From stdpp Require Import base list.

Local Open Scope Z_scope.

(** ** Machine integers and C truth values *)

(** Conversion to [u8]: the value modulo 2^8. *)
Definition u8 (x : Z) : Z := x mod 256.

(** Atoms are handled through [kbase_jd_atom *]; a pointer is its address
    and [NULL] is address 0. *)
Definition NULL : Z := 0.

Definition MALI_TRUE : Z := 1.
Definition MALI_FALSE : Z := 0.

(** C's [!x] and [x && y] on integers, and the integer a comparison
    yields. *)
Definition c_not (x : Z) : Z := if x =? 0 then 1 else 0.
Definition c_and (x y : Z) : Z := if x =? 0 then 0 else if y =? 0 then 0 else 1.
Definition c_bool (b : bool) : Z := if b then 1 else 0.

(** ** Build configuration

    The header does not define the constants it uses; they are taken as
    parameters of the build. *)
Record build_config : Type := {
  BASE_JM_SUBMIT_SLOTS : Z;
  BASE_JM_SUBMIT_SLOTS_MASK : Z;
  BASE_HW_ISSUE_5713 : bool;
  KBASE_RESET_GPU_NOT_PENDING : Z
}.

(** The ring indexes with [& BASE_JM_SUBMIT_SLOTS_MASK]: the number of
    submit slots is a power of two, the mask is that number minus one, and
    a count up to the number of slots fits the [u8] counter. *)
Definition config_ok (cfg : build_config) : Prop :=
  exists k, 0 <= k <= 7 /\
    BASE_JM_SUBMIT_SLOTS cfg = 2 ^ k /\
    BASE_JM_SUBMIT_SLOTS_MASK cfg = BASE_JM_SUBMIT_SLOTS cfg - 1.

(** ** Data *)

(** [kbase_jm_slot] is declared in another header; the fields are those this
    header accesses. [submitted_head] and [submitted_nr] are [u8], as the
    locals the header copies them to and the return type of
    [kbasep_jm_nr_jobs_submitted]. [submission_blocked_for_soft_stop] exists
    in builds with [BASE_HW_ISSUE_5713] and is ignored in the others. *)
Record kbase_jm_slot : Type := {
  submitted : list Z;
  submitted_head : Z;
  submitted_nr : Z;
  submission_blocked_for_soft_stop : bool
}.

(** The two job-slot registers the header reads through
    [JOB_SLOT_REG(js, r)]. *)
Inductive jsn_reg : Type := JSn_COMMAND | JSn_COMMAND_NEXT.

(** [kbase_device], as far as the header looks at it. [job_slot_regs] is the
    content of the job-slot registers as [kbase_reg_read] would return it. *)
Record kbase_device : Type := {
  nr_job_slots : Z;
  reset_gpu : Z;
  jm_slots : list kbase_jm_slot;
  job_slot_regs : Z -> jsn_reg -> Z
}.

(** ** Outcomes and the monad of the code

    A call ends with a value, with a failed assertion, or with an access
    outside an array, which is undefined in C. *)
Inductive outcome (A : Type) : Type :=
| Done (a : A)
| AssertFailed
| OutOfBounds.
Arguments Done {A} a.
Arguments AssertFailed {A}.
Arguments OutOfBounds {A}.

(** Code that works on a state [St] (a slot, or the device): a state and
    error monad. *)
Definition op (St A : Type) : Type := St -> outcome (A * St).

Definition ret {St A} (a : A) : op St A := fun s => Done (a, s).

Definition bind {St A B} (m : op St A) (f : A -> op St B) : op St B :=
  fun s => match m s with
           | Done (a, s') => f a s'
           | AssertFailed => AssertFailed
           | OutOfBounds => OutOfBounds
           end.

Declare Scope op_scope.
Delimit Scope op_scope with op.
Notation "x <- c1 ;; c2" := (bind c1 (fun x => c2))
  (at level 100, c1 at next level, right associativity) : op_scope.
Notation "c1 ;; c2" := (bind c1 (fun _ => c2))
  (at level 100, right associativity) : op_scope.

(** Modelled from the spec: the macro [OSK_ASSERT] is used by the header and
    defined elsewhere; the design document calls these checks fatal
    assertions, so a condition that is false ends the call. *)
Definition OSK_ASSERT {St} (b : bool) : op St unit :=
  fun s => if b then Done (tt, s) else AssertFailed.

(** An index inside an array of the length of [l]. *)
Definition in_array {A} (l : list A) (pos : Z) : bool :=
  (0 <=? pos) && (pos <? Z.of_nat (length l)).

(** *** Accesses to a slot *)

Definition slot_op (A : Type) : Type := op kbase_jm_slot A.

Definition load_head : slot_op Z := fun s => Done (submitted_head s, s).
Definition load_nr : slot_op Z := fun s => Done (submitted_nr s, s).

Definition store_head (v : Z) : slot_op unit := fun s =>
  Done (tt, {| submitted := submitted s; submitted_head := v;
               submitted_nr := submitted_nr s;
               submission_blocked_for_soft_stop := submission_blocked_for_soft_stop s |}).

Definition store_nr (v : Z) : slot_op unit := fun s =>
  Done (tt, {| submitted := submitted s; submitted_head := submitted_head s;
               submitted_nr := v;
               submission_blocked_for_soft_stop := submission_blocked_for_soft_stop s |}).

Definition store_blocked (v : bool) : slot_op unit := fun s =>
  Done (tt, {| submitted := submitted s; submitted_head := submitted_head s;
               submitted_nr := submitted_nr s;
               submission_blocked_for_soft_stop := v |}).

(** [slot->submitted[pos]], read and written. *)
Definition load_submitted (pos : Z) : slot_op Z := fun s =>
  if in_array (submitted s) pos then
    match submitted s !! Z.to_nat pos with
    | Some a => Done (a, s)
    | None => OutOfBounds
    end
  else OutOfBounds.

Definition store_submitted (pos : Z) (v : Z) : slot_op unit := fun s =>
  if in_array (submitted s) pos then
    Done (tt, {| submitted := <[Z.to_nat pos := v]> (submitted s);
                 submitted_head := submitted_head s;
                 submitted_nr := submitted_nr s;
                 submission_blocked_for_soft_stop := submission_blocked_for_soft_stop s |})
  else OutOfBounds.

(** *** Accesses to the device *)

Definition dev_op (A : Type) : Type := op kbase_device A.

Definition load_nr_job_slots : dev_op Z := fun d => Done (nr_job_slots d, d).

(** [osk_atomic_get(&kbdev->reset_gpu)] *)
Definition osk_atomic_get_reset_gpu : dev_op Z := fun d => Done (reset_gpu d, d).

(** [kbase_reg_read(kbdev, JOB_SLOT_REG(js, r), kctx)]; [kctx] only serves
    register tracing. *)
Definition kbase_reg_read (js : Z) (r : jsn_reg) (kctx : Z) : dev_op Z :=
  fun d => Done (job_slot_regs d js r, d).

(** [kbdev->jm_slots[js]], read. *)
Definition load_jm_slot (js : Z) : dev_op kbase_jm_slot := fun d =>
  if in_array (jm_slots d) js then
    match jm_slots d !! Z.to_nat js with
    | Some slot => Done (slot, d)
    | None => OutOfBounds
    end
  else OutOfBounds.

(** ** The functions of the header *)

Section Header.
Variable cfg : build_config.

Local Abbreviation CAP := (BASE_JM_SUBMIT_SLOTS cfg).
Local Abbreviation MASK := (BASE_JM_SUBMIT_SLOTS_MASK cfg).
Local Open Scope op_scope.

(** [kbdev] is a device, never the null pointer: the first assertion of the
    two functions below always holds and only the one on [js] is kept. *)
Definition kbasep_jm_is_js_free (js : Z) (kctx : Z) : dev_op Z :=
  nslots <- load_nr_job_slots ;;
  OSK_ASSERT ((0 <=? js) && (js <? nslots)) ;;
  if BASE_HW_ISSUE_5713 cfg then
    (* no job in the current registers either *)
    next <- kbase_reg_read js JSn_COMMAND_NEXT kctx ;;
    if c_not next =? 0 then ret 0
    else
      current <- kbase_reg_read js JSn_COMMAND kctx ;;
      ret (c_and (c_not next) (c_not current))
  else
    next <- kbase_reg_read js JSn_COMMAND_NEXT kctx ;;
    ret (c_not next).

(** The operands of [&&] are evaluated from the left and only as far as
    needed. *)
Definition kbasep_jm_is_submit_slots_free (js : Z) (kctx : Z) : dev_op Z :=
  nslots <- load_nr_job_slots ;;
  OSK_ASSERT ((0 <=? js) && (js <? nslots)) ;;
  reset <- osk_atomic_get_reset_gpu ;;
  if negb (reset =? KBASE_RESET_GPU_NOT_PENDING cfg) then
    (* The GPU is being reset - so prevent submission *)
    ret MALI_FALSE
  else if BASE_HW_ISSUE_5713 cfg then
    slot <- load_jm_slot js ;;
    if submission_blocked_for_soft_stop slot then ret MALI_FALSE
    else
      free <- kbasep_jm_is_js_free js kctx ;;
      if free =? 0 then ret MALI_FALSE
      else
        slot <- load_jm_slot js ;;
        ret (c_bool (submitted_nr slot <? CAP - 2))
  else
    free <- kbasep_jm_is_js_free js kctx ;;
    if free =? 0 then ret MALI_FALSE
    else
      slot <- load_jm_slot js ;;
      ret (c_bool (submitted_nr slot <? CAP - 2)).

(** Initialize a submit slot *)
Definition kbasep_jm_init_submit_slot : slot_op unit :=
  store_nr 0 ;;
  store_head 0 ;;
  if BASE_HW_ISSUE_5713 cfg then store_blocked false else ret tt.

(** Find the atom at the idx'th element in the queue without removing it,
    starting at the head with idx==0. *)
Definition kbasep_jm_peek_idx_submit_slot (idx : Z) : slot_op Z :=
  OSK_ASSERT (idx <? CAP) ;;
  head <- load_head ;;
  let pos := u8 (Z.land (head + idx) MASK) in
  katom <- load_submitted pos ;;
  ret katom.

(** Pop front of the submitted. The cell is cleared before the assertion
    (just to catch bugs); [OSK_PRINT_INFO] only traces and is left out. *)
Definition kbasep_jm_dequeue_submit_slot : slot_op Z :=
  head <- load_head ;;
  let pos := u8 (Z.land head MASK) in
  katom <- load_submitted pos ;;
  store_submitted pos NULL ;;
  OSK_ASSERT (negb (katom =? NULL)) ;;
  head <- load_head ;;
  store_head (u8 (Z.land (head + 1) MASK)) ;;
  nr <- load_nr ;;
  store_nr (u8 (nr - 1)) ;;
  ret katom.

(** Pop back of the submitted queue (unsubmit a job) *)
Definition kbasep_jm_dequeue_tail_submit_slot : slot_op Z :=
  nr <- load_nr ;;
  store_nr (u8 (nr - 1)) ;;
  head <- load_head ;;
  nr <- load_nr ;;
  let pos := u8 (Z.land (head + nr) MASK) in
  load_submitted pos.

Definition kbasep_jm_nr_jobs_submitted : slot_op Z := load_nr.

(** Push back of the submitted *)
Definition kbasep_jm_enqueue_submit_slot (katom : Z) : slot_op unit :=
  nr <- load_nr ;;
  store_nr (u8 (nr + 1)) ;;
  OSK_ASSERT (nr <? CAP) ;;
  head <- load_head ;;
  let pos := u8 (Z.land (head + nr) MASK) in
  store_submitted pos katom.

End Header.

(** ** Notions used to state the properties *)

(** A slot in memory: [submitted] has [BASE_JM_SUBMIT_SLOTS] cells and the
    two fields hold [u8] values. *)
Definition slot_wf (cfg : build_config) (s : kbase_jm_slot) : Prop :=
  Z.of_nat (length (submitted s)) = BASE_JM_SUBMIT_SLOTS cfg /\
  0 <= submitted_head s < 256 /\
  0 <= submitted_nr s < 256.

(** The cell of the ring at distance [i] from [submitted_head]. *)
Definition ring_cell (cfg : build_config) (s : kbase_jm_slot) (i : Z) : option Z :=
  submitted s !! Z.to_nat ((submitted_head s + i) mod BASE_JM_SUBMIT_SLOTS cfg).

(** *** Sequences of enqueues and front dequeues *)

Inductive queue_op : Type :=
| Enqueue (katom : Z)
| DequeueFront.

Definition run_op (cfg : build_config) (o : queue_op) : slot_op unit :=
  match o with
  | Enqueue katom => kbasep_jm_enqueue_submit_slot cfg katom
  | DequeueFront => bind (kbasep_jm_dequeue_submit_slot cfg) (fun _ => ret tt)
  end.

Fixpoint run_ops (cfg : build_config) (ops : list queue_op) : slot_op unit :=
  match ops with
  | [] => ret tt
  | o :: rest => bind (run_op cfg o) (fun _ => run_ops cfg rest)
  end.

Fixpoint enqueues (ops : list queue_op) : Z :=
  match ops with
  | [] => 0
  | Enqueue _ :: rest => 1 + enqueues rest
  | DequeueFront :: rest => enqueues rest
  end.

Fixpoint dequeues (ops : list queue_op) : Z :=
  match ops with
  | [] => 0
  | Enqueue _ :: rest => dequeues rest
  | DequeueFront :: rest => 1 + dequeues rest
  end.

(** From a queue holding [c] atoms, the sequence never enqueues at
    [c = cap] and never dequeues at [c = 0]. *)
Fixpoint respects_capacity (cap c : Z) (ops : list queue_op) : bool :=
  match ops with
  | [] => true
  | Enqueue _ :: rest => (c <? cap) && respects_capacity cap (c + 1) rest
  | DequeueFront :: rest => (0 <? c) && respects_capacity cap (c - 1) rest
  end.

(** The atoms handed to enqueue are pointers to atoms, not [NULL]. *)
Definition atoms_non_null (ops : list queue_op) : bool :=
  forallb (fun o => match o with
                    | Enqueue katom => negb (katom =? NULL)
                    | DequeueFront => true
                    end) ops.

(** The slot holds [c] atoms: the count is [c], within capacity, and the
    [c] cells from the head on hold atoms. *)
Definition ring_inv (cfg : build_config) (s : kbase_jm_slot) (c : Z) : Prop :=
  Z.of_nat (length (submitted s)) = BASE_JM_SUBMIT_SLOTS cfg /\
  submitted_nr s = c /\
  0 <= c <= BASE_JM_SUBMIT_SLOTS cfg /\
  forall i, 0 <= i < c -> exists a, ring_cell cfg s i = Some a /\ a <> NULL.

(** ** Concrete builds, slots and devices used to exercise the functions *)

(** A build with four submit slots and the PRLAM-5713 workaround. *)
Definition cfg_r0p0 : build_config :=
  {| BASE_JM_SUBMIT_SLOTS := 4; BASE_JM_SUBMIT_SLOTS_MASK := 3;
     BASE_HW_ISSUE_5713 := true; KBASE_RESET_GPU_NOT_PENDING := 0 |}.

(** The same without the workaround. *)
Definition cfg_r1p0 : build_config :=
  {| BASE_JM_SUBMIT_SLOTS := 4; BASE_JM_SUBMIT_SLOTS_MASK := 3;
     BASE_HW_ISSUE_5713 := false; KBASE_RESET_GPU_NOT_PENDING := 0 |}.

Definition slot_of (buf : list Z) (head nr : Z) (blocked : bool) : kbase_jm_slot :=
  {| submitted := buf; submitted_head := head; submitted_nr := nr;
     submission_blocked_for_soft_stop := blocked |}.

(** A device with three job slots whose registers all read [regs]. *)
Definition device_of (reset : Z) (slot : kbase_jm_slot) (regs : jsn_reg -> Z) : kbase_device :=
  {| nr_job_slots := 3; reset_gpu := reset;
     jm_slots := [slot; slot; slot];
     job_slot_regs := fun _ r => regs r |}.

(** A slot tracking the atoms 7 and 8, and the same slot blocked for a soft
    stop while empty. *)
Definition two_queued : kbase_jm_slot := slot_of [7; 8; 0; 0] 0 2 false.
Definition blocked_empty : kbase_jm_slot := slot_of [0; 0; 0; 0] 0 0 true.

Definition regs_idle : jsn_reg -> Z := fun _ => 0.
Definition regs_running : jsn_reg -> Z :=
  fun r => match r with JSn_COMMAND => 1 | JSn_COMMAND_NEXT => 0 end.

(** Two atoms submitted, the first completed, a third submitted. *)
Definition sample_ops : list queue_op := [Enqueue 7; Enqueue 8; DequeueFront; Enqueue 9].

(** Memory as the allocator hands it out: four cleared cells. *)
Definition fresh_slot : kbase_jm_slot := slot_of [0; 0; 0; 0] 0 0 false.

(** ** The queue a slot holds *)

(** The atoms a slot tracks, oldest first: the [submitted_nr] cells from
    [submitted_head] on. *)
Definition queue_contents (cfg : build_config) (s : kbase_jm_slot) : list Z :=
  map (fun i => default NULL (ring_cell cfg s i)) (seqZ 0 (submitted_nr s)).

(** The slot holds exactly the queue [q]. *)
Definition queue_rep (cfg : build_config) (s : kbase_jm_slot) (q : list Z) : Prop :=
  Z.of_nat (length (submitted s)) = BASE_JM_SUBMIT_SLOTS cfg /\
  submitted_nr s = Z.of_nat (length q) /\
  Z.of_nat (length q) <= BASE_JM_SUBMIT_SLOTS cfg /\
  forall i a, q !! i = Some a -> ring_cell cfg s (Z.of_nat i) = Some a.

(** The cells of the ring from distance [c] on hold [NULL]. *)
Definition ring_clean (cfg : build_config) (s : kbase_jm_slot) (c : Z) : Prop :=
  forall i, c <= i < BASE_JM_SUBMIT_SLOTS cfg -> ring_cell cfg s i = Some NULL.

(** The atoms a sequence enqueues, in order. *)
Fixpoint enqueued_atoms (ops : list queue_op) : list Z :=
  match ops with
  | [] => []
  | Enqueue katom :: rest => katom :: enqueued_atoms rest
  | DequeueFront :: rest => enqueued_atoms rest
  end.

(** A sequence run on a slot, returning the atoms its front dequeues
    returned, in order. *)
Fixpoint run_ops_out (cfg : build_config) (ops : list queue_op) : slot_op (list Z) :=
  match ops with
  | [] => ret []
  | Enqueue katom :: rest =>
      bind (kbasep_jm_enqueue_submit_slot cfg katom) (fun _ => run_ops_out cfg rest)
  | DequeueFront :: rest =>
      bind (kbasep_jm_dequeue_submit_slot cfg) (fun katom =>
      bind (run_ops_out cfg rest) (fun out => ret (katom :: out)))
  end.

(** A slot tracking one atom, a slot with the atoms 7, 8, 9 wrapped around
    the end of the array, and a full one. *)
Definition one_queued : kbase_jm_slot := slot_of [7; 0; 0; 0] 0 1 false.
Definition wrapped_slot : kbase_jm_slot := slot_of [8; 9; 0; 7] 3 3 false.
Definition full_slot : kbase_jm_slot := slot_of [8; 9; 6; 7] 3 4 false.

(** One atom submitted and completed. *)
Definition drained_ops : list queue_op := [Enqueue 7; DequeueFront].

(** The null pointer handed to enqueue, then a completion. *)
Definition null_atom_ops : list queue_op := [Enqueue NULL; DequeueFront].

(** ** The slot locks

    [osk_spinlock_irq_lock] and [osk_spinlock_irq_unlock] belong to the OSK
    layer; the header only chooses the lock they are called on. A call is
    recorded in the order it is made. *)
Inductive osk_spinlock_irq : Type :=
| jm_slot_lock                 (* kbdev->jm_slot_lock *)
| jm_slots_lock (js : Z).      (* kbdev->jm_slots[js].lock *)

Inductive osk_call : Type :=
| osk_spinlock_irq_lock (l : osk_spinlock_irq)
| osk_spinlock_irq_unlock (l : osk_spinlock_irq).

Definition call_osk (c : osk_call) : op (list osk_call) unit :=
  fun t => Done (tt, t ++ [c]).

(** Obtain the lock for a job slot; the slot returned is given by its
    index in [kbdev->jm_slots]. *)
Definition kbase_job_slot_lock (BASE_HW_ISSUE_7347 : bool) (js : Z) : op (list osk_call) Z :=
  bind (if BASE_HW_ISSUE_7347
        then call_osk (osk_spinlock_irq_lock jm_slot_lock)
        else call_osk (osk_spinlock_irq_lock (jm_slots_lock js)))
       (fun _ => ret js).

(** Release the lock for a job slot *)
Definition kbase_job_slot_unlock (BASE_HW_ISSUE_7347 : bool) (js : Z) : op (list osk_call) unit :=
  if BASE_HW_ISSUE_7347
  then call_osk (osk_spinlock_irq_unlock jm_slot_lock)
  else call_osk (osk_spinlock_irq_unlock (jm_slots_lock js)).


(** * Properties *)

(** ** Admission check *)

Section Admission.
Variable cfg : build_config.
Variable kbdev : kbase_device.
Variables js kctx : Z.
Hypothesis js_valid : 0 <= js < nr_job_slots kbdev.

Local Abbreviation CAP := (BASE_JM_SUBMIT_SLOTS cfg).
Local Abbreviation reg_next := (job_slot_regs kbdev js JSn_COMMAND_NEXT).
Local Abbreviation reg_current := (job_slot_regs kbdev js JSn_COMMAND).

Lemma js_assert_passes :
  OSK_ASSERT ((0 <=? js) && (js <? nr_job_slots kbdev)) kbdev = Done (tt, kbdev).
Proof using js_valid.
  unfold OSK_ASSERT.
  destruct (Z.leb_spec 0 js); [|lia].
  destruct (Z.ltb_spec js (nr_job_slots kbdev)); [reflexivity|lia].
Qed.

Lemma is_js_free_eval :
  kbasep_jm_is_js_free cfg js kctx kbdev =
  Done (c_bool ((reg_next =? 0) &&
                (if BASE_HW_ISSUE_5713 cfg then reg_current =? 0 else true)), kbdev).
Proof using js_valid.
  unfold kbasep_jm_is_js_free, bind, load_nr_job_slots.
  rewrite js_assert_passes.
  unfold kbase_reg_read, ret, c_and, c_not.
  destruct (BASE_HW_ISSUE_5713 cfg), (reg_next =? 0); cbn; try reflexivity;
    destruct (reg_current =? 0); reflexivity.
Qed.

Lemma load_jm_slot_lookup slot :
  jm_slots kbdev !! Z.to_nat js = Some slot -> load_jm_slot js kbdev = Done (slot, kbdev).
Proof using js_valid.
  intros Hs. unfold load_jm_slot, in_array.
  apply lookup_lt_Some in Hs as Hlt.
  destruct (Z.leb_spec 0 js); [|lia].
  destruct (Z.ltb_spec js (Z.of_nat (length (jm_slots kbdev)))); [|lia].
  cbn. now rewrite Hs.
Qed.

(** The whole check, as one boolean expression over the device state; the
    device is left as it was. *)
Lemma is_submit_slots_free_eval slot :
  jm_slots kbdev !! Z.to_nat js = Some slot ->
  kbasep_jm_is_submit_slots_free cfg js kctx kbdev =
  Done (c_bool ((reset_gpu kbdev =? KBASE_RESET_GPU_NOT_PENDING cfg) &&
                negb (BASE_HW_ISSUE_5713 cfg && submission_blocked_for_soft_stop slot) &&
                (reg_next =? 0) &&
                (if BASE_HW_ISSUE_5713 cfg then reg_current =? 0 else true) &&
                (submitted_nr slot <? CAP - 2)), kbdev).
Proof using js_valid.
  intros Hs.
  unfold kbasep_jm_is_submit_slots_free, bind, load_nr_job_slots, osk_atomic_get_reset_gpu.
  rewrite js_assert_passes.
  destruct (reset_gpu kbdev =? KBASE_RESET_GPU_NOT_PENDING cfg); [|reflexivity].
  cbn [negb andb]. destruct (BASE_HW_ISSUE_5713 cfg) eqn:Hissue.
  - rewrite (load_jm_slot_lookup _ Hs).
    destruct (submission_blocked_for_soft_stop slot); [reflexivity|].
    rewrite is_js_free_eval, Hissue. cbn [negb andb].
    destruct (reg_next =? 0), (reg_current =? 0); cbn [andb c_bool Z.eqb]; try reflexivity.
    now rewrite (load_jm_slot_lookup _ Hs).
  - rewrite is_js_free_eval, Hissue. cbn [negb andb]. rewrite andb_true_r.
    destruct (reg_next =? 0); cbn [andb c_bool Z.eqb]; try reflexivity.
    now rewrite (load_jm_slot_lookup _ Hs).
Qed.

(** C1: while the reset flag of the device differs from
    [KBASE_RESET_GPU_NOT_PENDING] (a reset is pending or in progress),
    [kbasep_jm_is_submit_slots_free] returns [MALI_FALSE], whatever the
    slot's queue, the registers and the soft-stop flag hold. *)
Theorem is_submit_slots_free_during_reset :
  reset_gpu kbdev <> KBASE_RESET_GPU_NOT_PENDING cfg ->
  kbasep_jm_is_submit_slots_free cfg js kctx kbdev = Done (MALI_FALSE, kbdev).
Proof using js_valid.
  intros Hreset.
  unfold kbasep_jm_is_submit_slots_free, bind, load_nr_job_slots, osk_atomic_get_reset_gpu.
  rewrite js_assert_passes.
  destruct (Z.eqb_spec (reset_gpu kbdev) (KBASE_RESET_GPU_NOT_PENDING cfg)); [contradiction|].
  reflexivity.
Qed.

(** C2: with the reset flag not pending and the slot not blocked for a
    soft stop, [kbasep_jm_is_submit_slots_free] returns a value, that value
    is true only if [submitted_nr < BASE_JM_SUBMIT_SLOTS - 2], and it is
    [MALI_FALSE] when [submitted_nr = BASE_JM_SUBMIT_SLOTS - 2], whatever the
    registers read. *)
Theorem is_submit_slots_free_margin slot :
  jm_slots kbdev !! Z.to_nat js = Some slot ->
  reset_gpu kbdev = KBASE_RESET_GPU_NOT_PENDING cfg ->
  submission_blocked_for_soft_stop slot = false ->
  exists r, kbasep_jm_is_submit_slots_free cfg js kctx kbdev = Done (r, kbdev) /\
    (r = MALI_TRUE \/ r = MALI_FALSE) /\
    (r = MALI_TRUE -> submitted_nr slot < CAP - 2) /\
    (submitted_nr slot = CAP - 2 -> r = MALI_FALSE).
Proof using js_valid.
  intros Hs Hreset Hblocked.
  rewrite (is_submit_slots_free_eval _ Hs).
  eexists; split; [reflexivity|].
  unfold MALI_TRUE, MALI_FALSE.
  destruct (Z.ltb_spec (submitted_nr slot) (CAP - 2)) as [Hlt|Hge].
  - split; [|split; [auto | lia]].
    match goal with |- c_bool ?b = 1 \/ _ => destruct b end; cbn [c_bool]; auto.
  - rewrite andb_false_r. cbn [c_bool]. split; [auto|]. split; [discriminate | reflexivity].
Qed.

(** C3: [kbasep_jm_is_js_free] returns 0 or 1 in every build; without
    [BASE_HW_ISSUE_5713] it is true exactly when [JSn_COMMAND_NEXT] reads 0,
    with it exactly when [JSn_COMMAND_NEXT] and [JSn_COMMAND] both read 0. *)
Theorem is_js_free_registers :
  exists r, kbasep_jm_is_js_free cfg js kctx kbdev = Done (r, kbdev) /\
    (r = 0 \/ r = 1) /\
    (BASE_HW_ISSUE_5713 cfg = false -> (r <> 0 <-> reg_next = 0)) /\
    (BASE_HW_ISSUE_5713 cfg = true -> (r <> 0 <-> reg_next = 0 /\ reg_current = 0)).
Proof using js_valid.
  rewrite is_js_free_eval. eexists; split; [reflexivity|].
  destruct (BASE_HW_ISSUE_5713 cfg);
    destruct (Z.eqb_spec reg_next 0), (Z.eqb_spec reg_current 0); cbn;
    (split; [lia|]); split; intros; try discriminate; split; intros; try lia; tauto.
Qed.

(** C9: in a build with [BASE_HW_ISSUE_5713], a slot whose
    [submission_blocked_for_soft_stop] is set makes
    [kbasep_jm_is_submit_slots_free] return [MALI_FALSE], whatever the
    count, the registers and the reset flag are. *)
Theorem is_submit_slots_free_soft_stop_blocked slot :
  BASE_HW_ISSUE_5713 cfg = true ->
  jm_slots kbdev !! Z.to_nat js = Some slot ->
  submission_blocked_for_soft_stop slot = true ->
  kbasep_jm_is_submit_slots_free cfg js kctx kbdev = Done (MALI_FALSE, kbdev).
Proof using js_valid.
  intros Hissue Hs Hblocked.
  rewrite (is_submit_slots_free_eval _ Hs), Hissue, Hblocked.
  cbn. now rewrite andb_false_r.
Qed.

End Admission.

Lemma is_submit_slots_free_during_reset_witness :
  kbasep_jm_is_submit_slots_free cfg_r1p0 0 0 (device_of 1 fresh_slot regs_idle)
  = Done (MALI_FALSE, device_of 1 fresh_slot regs_idle).
Proof.
  apply is_submit_slots_free_during_reset; [cbn; lia | cbn; lia].
Defined.

Lemma is_submit_slots_free_margin_witness :
  exists r,
    kbasep_jm_is_submit_slots_free cfg_r0p0 0 0 (device_of 0 two_queued regs_idle)
    = Done (r, device_of 0 two_queued regs_idle) /\
    (r = MALI_TRUE \/ r = MALI_FALSE) /\
    (r = MALI_TRUE -> submitted_nr two_queued < BASE_JM_SUBMIT_SLOTS cfg_r0p0 - 2) /\
    (submitted_nr two_queued = BASE_JM_SUBMIT_SLOTS cfg_r0p0 - 2 -> r = MALI_FALSE).
Proof.
  apply is_submit_slots_free_margin; [cbn; lia | reflexivity | reflexivity | reflexivity].
Defined.

Lemma is_js_free_registers_witness :
  exists r,
    kbasep_jm_is_js_free cfg_r0p0 1 0 (device_of 0 fresh_slot regs_running)
    = Done (r, device_of 0 fresh_slot regs_running) /\
    (r = 0 \/ r = 1) /\
    (BASE_HW_ISSUE_5713 cfg_r0p0 = false -> (r <> 0 <-> regs_running JSn_COMMAND_NEXT = 0)) /\
    (BASE_HW_ISSUE_5713 cfg_r0p0 = true ->
     (r <> 0 <-> regs_running JSn_COMMAND_NEXT = 0 /\ regs_running JSn_COMMAND = 0)).
Proof.
  apply (is_js_free_registers cfg_r0p0 (device_of 0 fresh_slot regs_running) 1 0).
  cbn; lia.
Defined.

Lemma is_submit_slots_free_soft_stop_blocked_witness :
  kbasep_jm_is_submit_slots_free cfg_r0p0 2 0 (device_of 0 blocked_empty regs_idle)
  = Done (MALI_FALSE, device_of 0 blocked_empty regs_idle).
Proof.
  apply (is_submit_slots_free_soft_stop_blocked cfg_r0p0 _ 2 0) with (slot := blocked_empty);
    [cbn; lia | reflexivity | reflexivity | reflexivity].
Defined.

(** ** Ring arithmetic *)

Lemma u8_small x : 0 <= x < 256 -> u8 x = x.
Proof. intros H. unfold u8. now apply Z.mod_small. Qed.

Lemma config_ok_slots cfg : config_ok cfg -> 1 <= BASE_JM_SUBMIT_SLOTS cfg <= 128.
Proof.
  intros (k & Hk & Hcap & _). rewrite Hcap. split.
  - assert (0 < 2 ^ k) by (apply Z.pow_pos_nonneg; lia). lia.
  - change 128 with (2 ^ 7). apply Z.pow_le_mono_r; lia.
Qed.

Lemma mask_is_mod cfg x :
  config_ok cfg ->
  Z.land x (BASE_JM_SUBMIT_SLOTS_MASK cfg) = x mod BASE_JM_SUBMIT_SLOTS cfg.
Proof.
  intros (k & Hk & Hcap & Hmask). rewrite Hmask, Hcap.
  replace (2 ^ k - 1) with (Z.ones k) by (rewrite Z.ones_equiv; lia).
  apply Z.land_ones. lia.
Qed.

Lemma ring_index_range cfg x :
  config_ok cfg -> 0 <= x mod BASE_JM_SUBMIT_SLOTS cfg < BASE_JM_SUBMIT_SLOTS cfg.
Proof. intros H. apply config_ok_slots in H. apply Z.mod_pos_bound. lia. Qed.

(** The position the code computes, [(u8)(x & MASK)], is [x mod CAP]. *)
Lemma ring_index cfg x :
  config_ok cfg ->
  u8 (Z.land x (BASE_JM_SUBMIT_SLOTS_MASK cfg)) = x mod BASE_JM_SUBMIT_SLOTS cfg.
Proof.
  intros H. rewrite mask_is_mod by assumption.
  pose proof (ring_index_range cfg x H). pose proof (config_ok_slots cfg H).
  apply u8_small. lia.
Qed.

(** Two positions less than a full turn apart are different cells. *)
Lemma ring_index_apart n x d :
  0 < d < n -> (x + d) mod n <> x mod n.
Proof.
  intros Hd Heq.
  assert (Hz : ((x + d) - x) mod n = 0).
  { rewrite Zminus_mod, Heq, Z.sub_diag. apply Z.mod_0_l. lia. }
  replace (x + d - x) with d in Hz by lia.
  rewrite Z.mod_small in Hz; lia.
Qed.

(** ** The slot operations, evaluated *)

Lemma load_submitted_cell s pos a :
  0 <= pos -> submitted s !! Z.to_nat pos = Some a ->
  load_submitted pos s = Done (a, s).
Proof.
  intros Hpos Hcell. unfold load_submitted, in_array.
  apply lookup_lt_Some in Hcell as Hlt.
  destruct (Z.leb_spec 0 pos); [|lia].
  destruct (Z.ltb_spec pos (Z.of_nat (length (submitted s)))); [|lia].
  cbn. now rewrite Hcell.
Qed.

Lemma store_submitted_cell s pos v :
  0 <= pos < Z.of_nat (length (submitted s)) ->
  store_submitted pos v s =
  Done (tt, Build_kbase_jm_slot (<[Z.to_nat pos := v]> (submitted s))
              (submitted_head s) (submitted_nr s) (submission_blocked_for_soft_stop s)).
Proof.
  intros Hpos. unfold store_submitted, in_array.
  destruct (Z.leb_spec 0 pos); [|lia].
  destruct (Z.ltb_spec pos (Z.of_nat (length (submitted s)))); [|lia].
  reflexivity.
Qed.

Lemma cell_exists (l : list Z) pos :
  0 <= pos < Z.of_nat (length l) -> exists a, l !! Z.to_nat pos = Some a.
Proof.
  intros Hpos. apply lookup_lt_is_Some_2. lia.
Qed.

Section Queue.
Variable cfg : build_config.
Hypothesis cfg_ok : config_ok cfg.

Local Abbreviation CAP := (BASE_JM_SUBMIT_SLOTS cfg).

Lemma ring_cell_exists s i :
  Z.of_nat (length (submitted s)) = CAP -> exists a, ring_cell cfg s i = Some a.
Proof using cfg_ok.
  intros Hlen. apply cell_exists. rewrite Hlen. now apply ring_index_range.
Qed.

Lemma peek_idx_eval s idx a :
  idx < CAP -> ring_cell cfg s idx = Some a ->
  kbasep_jm_peek_idx_submit_slot cfg idx s = Done (a, s).
Proof using cfg_ok.
  intros Hidx Hcell. unfold kbasep_jm_peek_idx_submit_slot, bind, OSK_ASSERT, load_head, ret.
  destruct (Z.ltb_spec idx CAP); [|lia].
  rewrite ring_index by assumption.
  rewrite (load_submitted_cell s _ a); [reflexivity| |exact Hcell].
  now apply ring_index_range.
Qed.

Lemma enqueue_eval s katom :
  Z.of_nat (length (submitted s)) = CAP ->
  submitted_nr s < CAP ->
  kbasep_jm_enqueue_submit_slot cfg katom s =
  Done (tt, Build_kbase_jm_slot
              (<[Z.to_nat ((submitted_head s + submitted_nr s) mod CAP) := katom]> (submitted s))
              (submitted_head s) (u8 (submitted_nr s + 1))
              (submission_blocked_for_soft_stop s)).
Proof using cfg_ok.
  intros Hlen Hnr.
  unfold kbasep_jm_enqueue_submit_slot, bind, OSK_ASSERT, load_head, load_nr, store_nr.
  destruct (Z.ltb_spec (submitted_nr s) CAP); [|lia].
  rewrite ring_index by assumption.
  rewrite store_submitted_cell; [reflexivity|].
  cbn [submitted]. rewrite Hlen. now apply ring_index_range.
Qed.

Lemma dequeue_tail_eval s a :
  submitted s !! Z.to_nat ((submitted_head s + u8 (submitted_nr s - 1)) mod CAP) = Some a ->
  kbasep_jm_dequeue_tail_submit_slot cfg s =
  Done (a, Build_kbase_jm_slot (submitted s) (submitted_head s)
             (u8 (submitted_nr s - 1)) (submission_blocked_for_soft_stop s)).
Proof using cfg_ok.
  intros Hcell.
  unfold kbasep_jm_dequeue_tail_submit_slot, bind, load_head, load_nr, store_nr.
  cbn [submitted_head submitted_nr].
  rewrite ring_index by assumption.
  rewrite (load_submitted_cell _ _ a); [reflexivity| |exact Hcell].
  now apply ring_index_range.
Qed.

Lemma dequeue_eval s a :
  ring_cell cfg s 0 = Some a ->
  kbasep_jm_dequeue_submit_slot cfg s =
  if a =? NULL then AssertFailed
  else Done (a, Build_kbase_jm_slot
                  (<[Z.to_nat (submitted_head s mod CAP) := NULL]> (submitted s))
                  ((submitted_head s + 1) mod CAP) (u8 (submitted_nr s - 1))
                  (submission_blocked_for_soft_stop s)).
Proof using cfg_ok.
  unfold ring_cell. rewrite Z.add_0_r. intros Hcell.
  unfold kbasep_jm_dequeue_submit_slot, bind, load_head.
  rewrite !ring_index by assumption.
  pose proof (ring_index_range cfg (submitted_head s) cfg_ok) as Hpos.
  rewrite (load_submitted_cell s _ a); [|lia|exact Hcell].
  apply lookup_lt_Some in Hcell as Hlt.
  rewrite store_submitted_cell by lia.
  unfold OSK_ASSERT. destruct (a =? NULL); [reflexivity|].
  cbn [negb]. unfold store_head, load_nr, store_nr, ret.
  cbn [submitted submitted_head submitted_nr submission_blocked_for_soft_stop].
  now rewrite ring_index by assumption.
Qed.

End Queue.

Section QueueClaims.
Variable cfg : build_config.
Hypothesis cfg_ok : config_ok cfg.

Local Abbreviation CAP := (BASE_JM_SUBMIT_SLOTS cfg).
Local Open Scope op_scope.

(** C4: on a slot holding fewer than [BASE_JM_SUBMIT_SLOTS] atoms,
    [kbasep_jm_enqueue_submit_slot] of [katom] followed by
    [kbasep_jm_dequeue_tail_submit_slot] returns [katom] and leaves
    [submitted_nr] and [submitted_head] as they were before the enqueue. *)
Theorem enqueue_then_dequeue_tail s katom :
  slot_wf cfg s ->
  submitted_nr s < CAP ->
  exists s1 s2,
    kbasep_jm_enqueue_submit_slot cfg katom s = Done (tt, s1) /\
    kbasep_jm_dequeue_tail_submit_slot cfg s1 = Done (katom, s2) /\
    submitted_nr s2 = submitted_nr s /\
    submitted_head s2 = submitted_head s.
Proof using cfg_ok.
  intros (Hlen & Hhead & Hnr) Hroom.
  pose proof (config_ok_slots cfg cfg_ok) as Hcap.
  rewrite (enqueue_eval cfg cfg_ok s katom Hlen Hroom).
  eexists; eexists; split; [reflexivity|].
  assert (Hback : u8 (u8 (submitted_nr s + 1) - 1) = submitted_nr s).
  { rewrite (u8_small (submitted_nr s + 1)) by lia.
    replace (submitted_nr s + 1 - 1) with (submitted_nr s) by lia.
    apply u8_small; lia. }
  rewrite (dequeue_tail_eval cfg cfg_ok _ katom).
  - cbn [submitted submitted_head submitted_nr]. rewrite Hback. repeat split; reflexivity.
  - cbn [submitted submitted_head submitted_nr]. rewrite Hback.
    apply list_lookup_insert_eq.
    pose proof (ring_index_range cfg (submitted_head s + submitted_nr s) cfg_ok). lia.
Qed.

(** C5, as the code has it: [kbasep_jm_peek_idx_submit_slot] asserts
    [idx < BASE_JM_SUBMIT_SLOTS] and nothing about [submitted_nr]; it fails
    when [idx >= BASE_JM_SUBMIT_SLOTS], and for every [idx] in
    [0, BASE_JM_SUBMIT_SLOTS), so for every [idx] below a count within
    capacity, it returns the cell at [(submitted_head + idx) mod
    BASE_JM_SUBMIT_SLOTS] and leaves the slot as it was. *)
Theorem peek_idx_reads_ring s idx :
  slot_wf cfg s ->
  (CAP <= idx -> kbasep_jm_peek_idx_submit_slot cfg idx s = AssertFailed) /\
  (0 <= idx < CAP ->
   exists katom,
     submitted s !! Z.to_nat ((submitted_head s + idx) mod CAP) = Some katom /\
     kbasep_jm_peek_idx_submit_slot cfg idx s = Done (katom, s)).
Proof using cfg_ok.
  intros (Hlen & _). split.
  - intros Hidx. unfold kbasep_jm_peek_idx_submit_slot, bind, OSK_ASSERT.
    destruct (Z.ltb_spec idx CAP); [lia|reflexivity].
  - intros Hidx. destruct (ring_cell_exists cfg cfg_ok s idx Hlen) as [a Ha].
    exists a. split; [exact Ha|]. apply peek_idx_eval; [assumption|lia|exact Ha].
Qed.

(** C6, as the code has it: [kbasep_jm_dequeue_submit_slot] tests the cell
    at [submitted_head], not [submitted_nr]. It fails when that cell is
    [NULL]; otherwise it returns the cell, writes [NULL] to it, advances
    [submitted_head] by one modulo [BASE_JM_SUBMIT_SLOTS] and takes one off
    [submitted_nr] as a [u8], which is [submitted_nr - 1] when
    [submitted_nr > 0]. *)
Theorem dequeue_tests_head_cell s :
  slot_wf cfg s ->
  exists katom,
    submitted s !! Z.to_nat (submitted_head s mod CAP) = Some katom /\
    (katom = NULL -> kbasep_jm_dequeue_submit_slot cfg s = AssertFailed) /\
    (katom <> NULL ->
     kbasep_jm_dequeue_submit_slot cfg s =
     Done (katom, Build_kbase_jm_slot
                    (<[Z.to_nat (submitted_head s mod CAP) := NULL]> (submitted s))
                    ((submitted_head s + 1) mod CAP)
                    (u8 (submitted_nr s - 1))
                    (submission_blocked_for_soft_stop s))) /\
    (0 < submitted_nr s -> u8 (submitted_nr s - 1) = submitted_nr s - 1).
Proof using cfg_ok.
  intros (Hlen & Hhead & Hnr).
  destruct (ring_cell_exists cfg cfg_ok s 0 Hlen) as [a Ha].
  pose proof (dequeue_eval cfg cfg_ok s a Ha) as Heval.
  unfold ring_cell in Ha. rewrite Z.add_0_r in Ha.
  exists a. split; [exact Ha|]. repeat split.
  - intros ->. exact Heval.
  - intros Hne. rewrite Heval. destruct (Z.eqb_spec a NULL); [contradiction|reflexivity].
  - intros Hpos. apply u8_small. lia.
Qed.

(** What [kbasep_jm_dequeue_tail_submit_slot] does on any slot: no
    assertion, the count goes down by one as a [u8]. *)
Lemma dequeue_tail_total s :
  slot_wf cfg s ->
  exists katom,
    submitted s !! Z.to_nat ((submitted_head s + u8 (submitted_nr s - 1)) mod CAP) = Some katom /\
    kbasep_jm_dequeue_tail_submit_slot cfg s =
    Done (katom, Build_kbase_jm_slot (submitted s) (submitted_head s)
                   (u8 (submitted_nr s - 1)) (submission_blocked_for_soft_stop s)).
Proof using cfg_ok.
  intros (Hlen & _).
  destruct (ring_cell_exists cfg cfg_ok s (u8 (submitted_nr s - 1)) Hlen) as [a Ha].
  exists a. split; [exact Ha|]. now apply dequeue_tail_eval.
Qed.

End QueueClaims.

Lemma enqueue_then_dequeue_tail_witness :
  exists s1 s2,
    kbasep_jm_enqueue_submit_slot cfg_r0p0 9 two_queued = Done (tt, s1) /\
    kbasep_jm_dequeue_tail_submit_slot cfg_r0p0 s1 = Done (9, s2) /\
    submitted_nr s2 = submitted_nr two_queued /\
    submitted_head s2 = submitted_head two_queued.
Proof.
  apply enqueue_then_dequeue_tail.
  - exists 2. repeat split; cbn; lia.
  - repeat split; cbn; lia.
  - cbn; lia.
Defined.

Lemma peek_idx_reads_ring_witness :
  (BASE_JM_SUBMIT_SLOTS cfg_r0p0 <= 1 ->
   kbasep_jm_peek_idx_submit_slot cfg_r0p0 1 two_queued = AssertFailed) /\
  (0 <= 1 < BASE_JM_SUBMIT_SLOTS cfg_r0p0 ->
   exists katom,
     submitted two_queued !!
       Z.to_nat ((submitted_head two_queued + 1) mod BASE_JM_SUBMIT_SLOTS cfg_r0p0)
     = Some katom /\
     kbasep_jm_peek_idx_submit_slot cfg_r0p0 1 two_queued = Done (katom, two_queued)).
Proof.
  apply peek_idx_reads_ring.
  - exists 2. repeat split; cbn; lia.
  - repeat split; cbn; lia.
Defined.

Lemma dequeue_tests_head_cell_witness :
  exists katom,
    submitted two_queued !!
      Z.to_nat (submitted_head two_queued mod BASE_JM_SUBMIT_SLOTS cfg_r0p0) = Some katom /\
    (katom = NULL -> kbasep_jm_dequeue_submit_slot cfg_r0p0 two_queued = AssertFailed) /\
    (katom <> NULL ->
     kbasep_jm_dequeue_submit_slot cfg_r0p0 two_queued =
     Done (katom, Build_kbase_jm_slot
                    (<[Z.to_nat (submitted_head two_queued mod BASE_JM_SUBMIT_SLOTS cfg_r0p0)
                       := NULL]> (submitted two_queued))
                    ((submitted_head two_queued + 1) mod BASE_JM_SUBMIT_SLOTS cfg_r0p0)
                    (u8 (submitted_nr two_queued - 1))
                    (submission_blocked_for_soft_stop two_queued))) /\
    (0 < submitted_nr two_queued ->
     u8 (submitted_nr two_queued - 1) = submitted_nr two_queued - 1).
Proof.
  apply dequeue_tests_head_cell.
  - exists 2. repeat split; cbn; lia.
  - repeat split; cbn; lia.
Defined.

(** C7: the code at an empty slot. On a freshly initialised slot of the
    four-cell build [kbasep_jm_dequeue_tail_submit_slot] does not fail: it
    returns the cell at [(0 + 255) & 3] and leaves [submitted_nr = 255];
    after four enqueues all taken back from the tail, a fifth call hands
    out the atom 10 again, with [submitted_nr = 255]. *)
Theorem dequeue_tail_on_empty_slot :
  (kbasep_jm_init_submit_slot cfg_r0p0 ;;
   kbasep_jm_dequeue_tail_submit_slot cfg_r0p0)%op fresh_slot
  = Done (NULL, slot_of [0; 0; 0; 0] 0 255 false) /\
  (kbasep_jm_init_submit_slot cfg_r0p0 ;;
   kbasep_jm_enqueue_submit_slot cfg_r0p0 7 ;;
   kbasep_jm_enqueue_submit_slot cfg_r0p0 8 ;;
   kbasep_jm_enqueue_submit_slot cfg_r0p0 9 ;;
   kbasep_jm_enqueue_submit_slot cfg_r0p0 10 ;;
   kbasep_jm_dequeue_tail_submit_slot cfg_r0p0 ;;
   kbasep_jm_dequeue_tail_submit_slot cfg_r0p0 ;;
   kbasep_jm_dequeue_tail_submit_slot cfg_r0p0 ;;
   kbasep_jm_dequeue_tail_submit_slot cfg_r0p0)%op fresh_slot
  = Done (7, slot_of [7; 8; 9; 10] 0 0 false) /\
  kbasep_jm_dequeue_tail_submit_slot cfg_r0p0 (slot_of [7; 8; 9; 10] 0 0 false)
  = Done (10, slot_of [7; 8; 9; 10] 0 255 false).
Proof. split; [reflexivity | split; reflexivity]. Qed.

(** C5, as stated, fails: after two enqueues and one [dequeue_tail] the
    slot holds one atom, and peeking at offset 1 (not below the count)
    returns the atom 9 that was taken back instead of failing. *)
Lemma peek_idx_past_count_returns :
  (kbasep_jm_init_submit_slot cfg_r0p0 ;;
   kbasep_jm_enqueue_submit_slot cfg_r0p0 7 ;;
   kbasep_jm_enqueue_submit_slot cfg_r0p0 9 ;;
   kbasep_jm_dequeue_tail_submit_slot cfg_r0p0)%op fresh_slot
  = Done (9, slot_of [7; 9; 0; 0] 0 1 false) /\
  submitted_nr (slot_of [7; 9; 0; 0] 0 1 false) <= 1 /\
  kbasep_jm_peek_idx_submit_slot cfg_r0p0 1 (slot_of [7; 9; 0; 0] 0 1 false)
  = Done (9, slot_of [7; 9; 0; 0] 0 1 false).
Proof. split; [reflexivity | split; [cbn; lia | reflexivity]]. Qed.

(** C6, as stated, fails: after an enqueue taken back by [dequeue_tail] the
    count is 0 but the cell at the head still holds the atom; the front
    dequeue then returns it instead of failing, and the count wraps. *)
Lemma dequeue_at_count_zero_returns :
  (kbasep_jm_init_submit_slot cfg_r0p0 ;;
   kbasep_jm_enqueue_submit_slot cfg_r0p0 7 ;;
   kbasep_jm_dequeue_tail_submit_slot cfg_r0p0)%op fresh_slot
  = Done (7, slot_of [7; 0; 0; 0] 0 0 false) /\
  submitted_nr (slot_of [7; 0; 0; 0] 0 0 false) = 0 /\
  kbasep_jm_dequeue_submit_slot cfg_r0p0 (slot_of [7; 0; 0; 0] 0 0 false)
  = Done (7, slot_of [0; 0; 0; 0] 1 255 false).
Proof. split; [reflexivity | split; reflexivity]. Qed.

(** ** The head stays in the ring *)

Ltac slot_inv H :=
  unfold bind, OSK_ASSERT, load_head, load_nr, store_head, store_nr, store_blocked,
    load_submitted, store_submitted, ret in H;
  repeat case_match; simplify_eq; cbn.

(** C10: [kbasep_jm_init_submit_slot] sets [submitted_head] to 0; enqueue,
    dequeue from the tail and peek leave [submitted_head] as it is; the
    front dequeue stores [(submitted_head + 1) & BASE_JM_SUBMIT_SLOTS_MASK],
    which lies in [0, BASE_JM_SUBMIT_SLOTS). So [submitted_head] in
    [0, BASE_JM_SUBMIT_SLOTS) holds after init and is kept by every queue
    operation. *)
Theorem submitted_head_in_ring cfg :
  config_ok cfg ->
  (forall s, exists s',
      kbasep_jm_init_submit_slot cfg s = Done (tt, s') /\
      submitted_head s' = 0 /\ 0 <= submitted_head s' < BASE_JM_SUBMIT_SLOTS cfg) /\
  (forall s katom s',
      kbasep_jm_enqueue_submit_slot cfg katom s = Done (tt, s') ->
      submitted_head s' = submitted_head s) /\
  (forall s katom s',
      kbasep_jm_dequeue_tail_submit_slot cfg s = Done (katom, s') ->
      submitted_head s' = submitted_head s) /\
  (forall s idx katom s',
      kbasep_jm_peek_idx_submit_slot cfg idx s = Done (katom, s') ->
      submitted_head s' = submitted_head s) /\
  (forall s katom s',
      kbasep_jm_dequeue_submit_slot cfg s = Done (katom, s') ->
      submitted_head s' = Z.land (submitted_head s + 1) (BASE_JM_SUBMIT_SLOTS_MASK cfg) /\
      0 <= submitted_head s' < BASE_JM_SUBMIT_SLOTS cfg).
Proof.
  intros Hcfg. pose proof (config_ok_slots cfg Hcfg) as Hcap.
  split; [|split; [|split; [|split]]].
  - intros s. unfold kbasep_jm_init_submit_slot, bind, store_nr, store_head, store_blocked, ret.
    destruct (BASE_HW_ISSUE_5713 cfg); eexists; (split; [reflexivity|cbn; lia]).
  - intros s katom s' H. unfold kbasep_jm_enqueue_submit_slot in H. slot_inv H. reflexivity.
  - intros s katom s' H. unfold kbasep_jm_dequeue_tail_submit_slot in H. slot_inv H. reflexivity.
  - intros s idx katom s' H. unfold kbasep_jm_peek_idx_submit_slot in H. slot_inv H. reflexivity.
  - intros s katom s' H. unfold kbasep_jm_dequeue_submit_slot in H. slot_inv H.
    rewrite ring_index by assumption.
    split; [symmetry; now apply mask_is_mod | now apply ring_index_range].
Qed.

Lemma submitted_head_in_ring_witness :
  exists s',
    kbasep_jm_init_submit_slot cfg_r0p0 two_queued = Done (tt, s') /\
    submitted_head s' = 0 /\ 0 <= submitted_head s' < BASE_JM_SUBMIT_SLOTS cfg_r0p0.
Proof.
  apply (submitted_head_in_ring cfg_r0p0).
  exists 2. repeat split; cbn; lia.
Defined.

(** ** Sequences of enqueues and front dequeues *)

Section Sequences.
Variable cfg : build_config.
Hypothesis cfg_ok : config_ok cfg.

Local Abbreviation CAP := (BASE_JM_SUBMIT_SLOTS cfg).

Lemma init_ring_inv s :
  Z.of_nat (length (submitted s)) = CAP ->
  exists s', kbasep_jm_init_submit_slot cfg s = Done (tt, s') /\ ring_inv cfg s' 0.
Proof using cfg_ok.
  intros Hlen. pose proof (config_ok_slots cfg cfg_ok).
  unfold kbasep_jm_init_submit_slot, bind, store_nr, store_head, store_blocked, ret.
  destruct (BASE_HW_ISSUE_5713 cfg); eexists; (split; [reflexivity|]);
    (split; [exact Hlen|]); (split; [reflexivity|]); (split; [lia|]); intros i Hi; lia.
Qed.

Lemma enqueue_ring_inv s c katom :
  ring_inv cfg s c -> c < CAP -> katom <> NULL ->
  exists s', kbasep_jm_enqueue_submit_slot cfg katom s = Done (tt, s') /\
             ring_inv cfg s' (c + 1).
Proof using cfg_ok.
  intros (Hlen & Hnr & Hc & Hcells) Hroom Hkatom.
  pose proof (config_ok_slots cfg cfg_ok) as Hcap.
  rewrite enqueue_eval by (assumption || lia).
  eexists; split; [reflexivity|].
  split; [cbn [submitted]; now rewrite length_insert|].
  split; [cbn [submitted_nr]; rewrite Hnr; apply u8_small; lia|].
  split; [lia|].
  intros i Hi. unfold ring_cell. cbn [submitted submitted_head]. rewrite Hnr.
  pose proof (ring_index_range cfg (submitted_head s + c) cfg_ok) as Hpos.
  pose proof (ring_index_range cfg (submitted_head s + i) cfg_ok) as Hposi.
  destruct (Z.eq_dec i c) as [->|Hne].
  - exists katom. split; [|exact Hkatom]. apply list_lookup_insert_eq. lia.
  - destruct (Hcells i) as (a & Ha & Hnull); [lia|].
    exists a. split; [|exact Hnull].
    rewrite list_lookup_insert_ne; [exact Ha|].
    intros Heq. apply Z2Nat.inj in Heq; [|lia|lia].
    apply (ring_index_apart CAP (submitted_head s + i) (c - i)); [lia|].
    now replace (submitted_head s + i + (c - i)) with (submitted_head s + c) by lia.
Qed.

Lemma dequeue_ring_inv s c :
  ring_inv cfg s c -> 0 < c ->
  exists a s', kbasep_jm_dequeue_submit_slot cfg s = Done (a, s') /\
               ring_inv cfg s' (c - 1).
Proof using cfg_ok.
  intros (Hlen & Hnr & Hc & Hcells) Hpos.
  pose proof (config_ok_slots cfg cfg_ok) as Hcap.
  destruct (Hcells 0) as (a & Ha & Hnull); [lia|].
  rewrite (dequeue_eval cfg cfg_ok s a Ha).
  destruct (Z.eqb_spec a NULL); [contradiction|].
  eexists; eexists; split; [reflexivity|].
  split; [cbn [submitted]; now rewrite length_insert|].
  split; [cbn [submitted_nr]; rewrite Hnr; apply u8_small; lia|].
  split; [lia|].
  intros i Hi. unfold ring_cell. cbn [submitted submitted_head].
  rewrite Z.add_mod_idemp_l by lia.
  destruct (Hcells (1 + i)) as (b & Hb & Hbnull); [lia|].
  unfold ring_cell in Hb. rewrite Z.add_assoc in Hb.
  exists b. split; [|exact Hbnull].
  pose proof (ring_index_range cfg (submitted_head s) cfg_ok).
  pose proof (ring_index_range cfg (submitted_head s + 1 + i) cfg_ok).
  rewrite list_lookup_insert_ne; [exact Hb|].
  intros Heq. apply Z2Nat.inj in Heq; [|lia|lia].
  apply (ring_index_apart CAP (submitted_head s) (1 + i)); [lia|].
  now replace (submitted_head s + (1 + i)) with (submitted_head s + 1 + i) by lia.
Qed.

Lemma run_ops_ring_inv ops : forall s c,
  ring_inv cfg s c ->
  respects_capacity CAP c ops = true ->
  atoms_non_null ops = true ->
  exists s', run_ops cfg ops s = Done (tt, s') /\
             ring_inv cfg s' (c + enqueues ops - dequeues ops).
Proof using cfg_ok.
  induction ops as [|o rest IH]; intros s c Hinv Hcap Hatoms.
  - exists s. split; [reflexivity|]. cbn [enqueues dequeues].
    now replace (c + 0 - 0) with c by lia.
  - destruct o as [katom|]; cbn [respects_capacity atoms_non_null forallb] in Hcap, Hatoms;
      apply andb_prop in Hcap as [Hnow Hrest].
    + apply andb_prop in Hatoms as [Hkatom Hatoms].
      apply Z.ltb_lt in Hnow. apply negb_true_iff, Z.eqb_neq in Hkatom.
      destruct (enqueue_ring_inv s c katom Hinv Hnow Hkatom) as (s1 & Hrun & Hinv1).
      destruct (IH s1 (c + 1) Hinv1 Hrest Hatoms) as (s' & Hrun' & Hinv').
      exists s'. split.
      * cbn [run_ops run_op]. unfold bind at 1. now rewrite Hrun.
      * cbn [enqueues dequeues].
        now replace (c + (1 + enqueues rest) - dequeues rest)
          with (c + 1 + enqueues rest - dequeues rest) by lia.
    + apply Z.ltb_lt in Hnow.
      destruct (dequeue_ring_inv s c Hinv Hnow) as (a & s1 & Hrun & Hinv1).
      destruct (IH s1 (c - 1) Hinv1 Hrest Hatoms) as (s' & Hrun' & Hinv').
      exists s'. split.
      * cbn [run_ops run_op]. unfold bind at 1 2. rewrite Hrun. exact Hrun'.
      * cbn [enqueues dequeues].
        now replace (c + enqueues rest - (1 + dequeues rest))
          with (c - 1 + enqueues rest - dequeues rest) by lia.
Qed.

(** C8, as the code has it: from a slot initialised by
    [kbasep_jm_init_submit_slot], every sequence of enqueues of atoms that
    are not [NULL] and of front dequeues that respects the capacity runs to
    its end, [kbasep_jm_nr_jobs_submitted] then returns the number of
    enqueues minus the number of dequeues, and that number is at most
    [BASE_JM_SUBMIT_SLOTS]. *)
Theorem nr_jobs_submitted_counts s0 ops :
  Z.of_nat (length (submitted s0)) = CAP ->
  respects_capacity CAP 0 ops = true ->
  atoms_non_null ops = true ->
  exists s',
    bind (kbasep_jm_init_submit_slot cfg) (fun _ =>
    bind (run_ops cfg ops) (fun _ =>
    kbasep_jm_nr_jobs_submitted)) s0
    = Done (enqueues ops - dequeues ops, s') /\
    0 <= enqueues ops - dequeues ops <= CAP.
Proof using cfg_ok.
  intros Hlen Hcap Hatoms.
  destruct (init_ring_inv s0 Hlen) as (s1 & Hinit & Hinv1).
  destruct (run_ops_ring_inv ops s1 0 Hinv1 Hcap Hatoms) as (s' & Hrun & Hinv').
  destruct Hinv' as (_ & Hnr & Hrange & _).
  exists s'. split; [|lia].
  unfold bind at 1. rewrite Hinit. unfold bind. rewrite Hrun.
  unfold kbasep_jm_nr_jobs_submitted, load_nr. rewrite Hnr.
  reflexivity.
Qed.

End Sequences.

Lemma nr_jobs_submitted_counts_witness :
  exists s',
    bind (kbasep_jm_init_submit_slot cfg_r0p0) (fun _ =>
    bind (run_ops cfg_r0p0 sample_ops) (fun _ =>
    kbasep_jm_nr_jobs_submitted)) fresh_slot
    = Done (enqueues sample_ops - dequeues sample_ops, s') /\
    0 <= enqueues sample_ops - dequeues sample_ops <= BASE_JM_SUBMIT_SLOTS cfg_r0p0.
Proof.
  apply nr_jobs_submitted_counts.
  - exists 2. repeat split; cbn; lia.
  - reflexivity.
  - reflexivity.
  - reflexivity.
Defined.

(** C8, as stated, fails: enqueueing the null pointer and dequeueing it
    respects the capacity (one enqueue at count 0, one dequeue at count 1),
    yet the front dequeue stops at [OSK_ASSERT(katom)] and no count is
    returned. *)
Lemma nr_jobs_submitted_after_null_atom :
  Z.of_nat (length (submitted fresh_slot)) = BASE_JM_SUBMIT_SLOTS cfg_r0p0 /\
  respects_capacity (BASE_JM_SUBMIT_SLOTS cfg_r0p0) 0 null_atom_ops = true /\
  bind (kbasep_jm_init_submit_slot cfg_r0p0) (fun _ =>
  bind (run_ops cfg_r0p0 null_atom_ops) (fun _ =>
  kbasep_jm_nr_jobs_submitted)) fresh_slot = AssertFailed.
Proof. split; [reflexivity | split; reflexivity]. Qed.

(** * Further properties of the header *)

(** ** The admission check, completely *)

Section AdmissionMore.
Variable cfg : build_config.
Variable kbdev : kbase_device.
Variables js kctx : Z.

Local Abbreviation CAP := (BASE_JM_SUBMIT_SLOTS cfg).
Local Abbreviation reg_next := (job_slot_regs kbdev js JSn_COMMAND_NEXT).
Local Abbreviation reg_current := (job_slot_regs kbdev js JSn_COMMAND).

(** X1: for a valid slot index [kbasep_jm_is_submit_slots_free] leaves the
    device as it is and returns [MALI_TRUE] exactly when no reset is
    pending, the slot is not blocked for a soft stop (builds with
    [BASE_HW_ISSUE_5713]), [JSn_COMMAND_NEXT] reads 0, [JSn_COMMAND] reads 0
    (same builds) and [submitted_nr < BASE_JM_SUBMIT_SLOTS - 2]; in every
    other case it returns [MALI_FALSE]. *)
Theorem is_submit_slots_free_iff slot :
  0 <= js < nr_job_slots kbdev ->
  jm_slots kbdev !! Z.to_nat js = Some slot ->
  exists r,
    kbasep_jm_is_submit_slots_free cfg js kctx kbdev = Done (r, kbdev) /\
    (r = MALI_TRUE \/ r = MALI_FALSE) /\
    (r = MALI_TRUE <->
     reset_gpu kbdev = KBASE_RESET_GPU_NOT_PENDING cfg /\
     (BASE_HW_ISSUE_5713 cfg = true -> submission_blocked_for_soft_stop slot = false) /\
     reg_next = 0 /\
     (BASE_HW_ISSUE_5713 cfg = true -> reg_current = 0) /\
     submitted_nr slot < CAP - 2).
Proof.
  intros Hjs Hs.
  rewrite (is_submit_slots_free_eval cfg kbdev js kctx Hjs slot Hs).
  eexists; split; [reflexivity|].
  unfold MALI_TRUE, MALI_FALSE.
  destruct (Z.eqb_spec (reset_gpu kbdev) (KBASE_RESET_GPU_NOT_PENDING cfg)),
    (BASE_HW_ISSUE_5713 cfg), (submission_blocked_for_soft_stop slot),
    (Z.eqb_spec reg_next 0), (Z.eqb_spec reg_current 0),
    (Z.ltb_spec (submitted_nr slot) (CAP - 2)); cbn;
    (split; [auto|]); split; try discriminate; intros; try tauto;
    repeat split; intros; try lia; try discriminate; intuition (try discriminate; try lia).
Qed.

(** X2: with a slot index outside [0, nr_job_slots) both checks stop at
    their assertion, also while a reset is pending. *)
Theorem admission_checks_assert_slot_index :
  js < 0 \/ nr_job_slots kbdev <= js ->
  kbasep_jm_is_js_free cfg js kctx kbdev = AssertFailed /\
  kbasep_jm_is_submit_slots_free cfg js kctx kbdev = AssertFailed.
Proof.
  intros Hjs.
  unfold kbasep_jm_is_js_free, kbasep_jm_is_submit_slots_free, bind,
    load_nr_job_slots, OSK_ASSERT.
  destruct (Z.leb_spec 0 js), (Z.ltb_spec js (nr_job_slots kbdev));
    cbn [andb]; (split; [reflexivity|reflexivity]) || lia.
Qed.

(** X5: when the check admits a slot, [kbasep_jm_enqueue_submit_slot] on
    that slot passes its assertion, and afterwards at least two cells of
    the ring are still unused. *)
Theorem admitted_enqueue_keeps_margin slot katom :
  config_ok cfg ->
  0 <= js < nr_job_slots kbdev ->
  jm_slots kbdev !! Z.to_nat js = Some slot ->
  Z.of_nat (length (submitted slot)) = CAP ->
  0 <= submitted_nr slot ->
  kbasep_jm_is_submit_slots_free cfg js kctx kbdev = Done (MALI_TRUE, kbdev) ->
  exists slot',
    kbasep_jm_enqueue_submit_slot cfg katom slot = Done (tt, slot') /\
    submitted_nr slot' = submitted_nr slot + 1 /\
    submitted_nr slot' + 2 <= CAP.
Proof.
  intros Hcfg Hjs Hs Hlen Hnr Hfree.
  rewrite (is_submit_slots_free_eval cfg kbdev js kctx Hjs slot Hs) in Hfree.
  assert (Hroom : submitted_nr slot < CAP - 2).
  { destruct (Z.ltb_spec (submitted_nr slot) (CAP - 2)); [assumption|].
    rewrite andb_false_r in Hfree. discriminate. }
  pose proof (config_ok_slots cfg Hcfg).
  rewrite enqueue_eval by (assumption || lia).
  eexists; split; [reflexivity|]. cbn [submitted_nr].
  rewrite u8_small by lia. lia.
Qed.

End AdmissionMore.

Lemma is_submit_slots_free_iff_witness :
  exists r,
    kbasep_jm_is_submit_slots_free cfg_r0p0 0 0 (device_of 0 one_queued regs_idle)
    = Done (r, device_of 0 one_queued regs_idle) /\
    (r = MALI_TRUE \/ r = MALI_FALSE) /\
    (r = MALI_TRUE <->
     reset_gpu (device_of 0 one_queued regs_idle) = KBASE_RESET_GPU_NOT_PENDING cfg_r0p0 /\
     (BASE_HW_ISSUE_5713 cfg_r0p0 = true ->
      submission_blocked_for_soft_stop one_queued = false) /\
     regs_idle JSn_COMMAND_NEXT = 0 /\
     (BASE_HW_ISSUE_5713 cfg_r0p0 = true -> regs_idle JSn_COMMAND = 0) /\
     submitted_nr one_queued < BASE_JM_SUBMIT_SLOTS cfg_r0p0 - 2).
Proof.
  apply (is_submit_slots_free_iff cfg_r0p0 (device_of 0 one_queued regs_idle) 0 0 one_queued);
    [cbn; lia | reflexivity].
Defined.

Lemma admission_checks_assert_slot_index_witness :
  kbasep_jm_is_js_free cfg_r0p0 3 0 (device_of 1 fresh_slot regs_idle) = AssertFailed /\
  kbasep_jm_is_submit_slots_free cfg_r0p0 3 0 (device_of 1 fresh_slot regs_idle) = AssertFailed.
Proof.
  apply admission_checks_assert_slot_index. right. cbn. lia.
Defined.

Lemma admitted_enqueue_keeps_margin_witness :
  exists slot',
    kbasep_jm_enqueue_submit_slot cfg_r0p0 9 one_queued = Done (tt, slot') /\
    submitted_nr slot' = submitted_nr one_queued + 1 /\
    submitted_nr slot' + 2 <= BASE_JM_SUBMIT_SLOTS cfg_r0p0.
Proof.
  apply (admitted_enqueue_keeps_margin cfg_r0p0 (device_of 0 one_queued regs_idle) 0 0).
  - exists 2. repeat split; cbn; lia.
  - cbn; lia.
  - reflexivity.
  - reflexivity.
  - cbn; lia.
  - reflexivity.
Defined.

(** X3: a build without [BASE_HW_ISSUE_5713] looks only at the reset flag,
    at [JSn_COMMAND_NEXT] and at [submitted_nr]: two devices that agree on
    these get the same answer, whatever [JSn_COMMAND], the soft-stop flags
    and the rings hold. *)
Theorem admission_without_workaround_reads cfg kbdev kbdev' js kctx slot slot' :
  BASE_HW_ISSUE_5713 cfg = false ->
  0 <= js < nr_job_slots kbdev ->
  nr_job_slots kbdev' = nr_job_slots kbdev ->
  reset_gpu kbdev' = reset_gpu kbdev ->
  job_slot_regs kbdev' js JSn_COMMAND_NEXT = job_slot_regs kbdev js JSn_COMMAND_NEXT ->
  jm_slots kbdev !! Z.to_nat js = Some slot ->
  jm_slots kbdev' !! Z.to_nat js = Some slot' ->
  submitted_nr slot' = submitted_nr slot ->
  exists r,
    kbasep_jm_is_submit_slots_free cfg js kctx kbdev = Done (r, kbdev) /\
    kbasep_jm_is_submit_slots_free cfg js kctx kbdev' = Done (r, kbdev').
Proof.
  intros Hissue Hjs Hslots Hreset Hnext Hs Hs' Hnr.
  assert (Hjs' : 0 <= js < nr_job_slots kbdev') by lia.
  rewrite (is_submit_slots_free_eval cfg kbdev js kctx Hjs slot Hs).
  rewrite (is_submit_slots_free_eval cfg kbdev' js kctx Hjs' slot' Hs').
  rewrite Hissue, Hreset, Hnext, Hnr. cbn [andb negb].
  eexists; split; reflexivity.
Qed.

Lemma admission_without_workaround_reads_witness :
  exists r,
    kbasep_jm_is_submit_slots_free cfg_r1p0 0 0 (device_of 0 fresh_slot regs_idle)
    = Done (r, device_of 0 fresh_slot regs_idle) /\
    kbasep_jm_is_submit_slots_free cfg_r1p0 0 0 (device_of 0 blocked_empty regs_running)
    = Done (r, device_of 0 blocked_empty regs_running).
Proof.
  apply (admission_without_workaround_reads cfg_r1p0 _ _ 0 0 fresh_slot blocked_empty);
    try reflexivity. cbn; lia.
Defined.

(** X4: the PRLAM-5713 workaround only ever refuses more: when the build
    with [BASE_HW_ISSUE_5713] admits a slot, a build with the same constants
    and without it admits the slot on the same device. *)
Theorem workaround_only_refuses cfg cfg' kbdev js kctx slot :
  BASE_HW_ISSUE_5713 cfg = true ->
  BASE_HW_ISSUE_5713 cfg' = false ->
  BASE_JM_SUBMIT_SLOTS cfg' = BASE_JM_SUBMIT_SLOTS cfg ->
  KBASE_RESET_GPU_NOT_PENDING cfg' = KBASE_RESET_GPU_NOT_PENDING cfg ->
  0 <= js < nr_job_slots kbdev ->
  jm_slots kbdev !! Z.to_nat js = Some slot ->
  kbasep_jm_is_submit_slots_free cfg js kctx kbdev = Done (MALI_TRUE, kbdev) ->
  kbasep_jm_is_submit_slots_free cfg' js kctx kbdev = Done (MALI_TRUE, kbdev).
Proof.
  intros Hissue Hissue' Hcap Hnp Hjs Hs Hfree.
  rewrite (is_submit_slots_free_eval cfg kbdev js kctx Hjs slot Hs) in Hfree.
  rewrite (is_submit_slots_free_eval cfg' kbdev js kctx Hjs slot Hs).
  rewrite Hissue in Hfree. rewrite Hissue', Hcap, Hnp.
  destruct (reset_gpu kbdev =? KBASE_RESET_GPU_NOT_PENDING cfg),
    (submission_blocked_for_soft_stop slot),
    (job_slot_regs kbdev js JSn_COMMAND_NEXT =? 0),
    (job_slot_regs kbdev js JSn_COMMAND =? 0),
    (submitted_nr slot <? BASE_JM_SUBMIT_SLOTS cfg - 2);
    cbn in Hfree |- *; solve [discriminate | reflexivity].
Qed.

Lemma workaround_only_refuses_witness :
  kbasep_jm_is_submit_slots_free cfg_r1p0 0 0 (device_of 0 one_queued regs_idle)
  = Done (MALI_TRUE, device_of 0 one_queued regs_idle).
Proof.
  apply (workaround_only_refuses cfg_r0p0 cfg_r1p0 _ 0 0 one_queued); try reflexivity.
  cbn; lia.
Defined.

(** ** The ring as a queue *)

Section QueueMore.
Variable cfg : build_config.
Hypothesis cfg_ok : config_ok cfg.

Local Abbreviation CAP := (BASE_JM_SUBMIT_SLOTS cfg).

Lemma queue_rep_contents s q : queue_rep cfg s q -> queue_contents cfg s = q.
Proof.
  intros (_ & Hnr & _ & Hcells). apply list_eq. intros i.
  unfold queue_contents. rewrite list_lookup_fmap, Hnr.
  destruct (q !! i) as [a|] eqn:Hq.
  - apply lookup_lt_Some in Hq as Hlt.
    rewrite lookup_seqZ_lt by lia. cbn. rewrite Z.add_0_l.
    now rewrite (Hcells i a Hq).
  - apply lookup_ge_None in Hq. now rewrite lookup_seqZ_ge by lia.
Qed.

Lemma contents_rep s :
  Z.of_nat (length (submitted s)) = CAP ->
  0 <= submitted_nr s <= CAP ->
  queue_rep cfg s (queue_contents cfg s).
Proof using cfg_ok.
  intros Hlen Hnr.
  assert (Hsize : Z.of_nat (length (queue_contents cfg s)) = submitted_nr s).
  { unfold queue_contents. rewrite length_map, length_seqZ. lia. }
  split; [exact Hlen|]. split; [now rewrite Hsize|]. split; [lia|].
  intros i a Hi. unfold queue_contents in Hi.
  rewrite list_lookup_fmap in Hi.
  destruct (seqZ 0 (submitted_nr s) !! i) as [j|] eqn:Hj; [|discriminate].
  apply lookup_seqZ in Hj as [-> _]. cbn in Hi. rewrite Z.add_0_l in Hi.
  destruct (ring_cell_exists cfg cfg_ok s (Z.of_nat i) Hlen) as [b Hb].
  rewrite Hb in Hi |- *. cbn in Hi. congruence.
Qed.

Lemma init_step s :
  Z.of_nat (length (submitted s)) = CAP ->
  exists s',
    kbasep_jm_init_submit_slot cfg s = Done (tt, s') /\
    queue_rep cfg s' [] /\
    submitted s' = submitted s /\ submitted_head s' = 0.
Proof using cfg_ok.
  intros Hlen. pose proof (config_ok_slots cfg cfg_ok).
  unfold kbasep_jm_init_submit_slot, bind, store_nr, store_head, store_blocked, ret.
  destruct (BASE_HW_ISSUE_5713 cfg); eexists; (split; [reflexivity|]);
    (split; [|split; reflexivity]);
    (split; [exact Hlen|]); (split; [reflexivity|]); (split; [cbn; lia|]);
    intros i a Hi; discriminate.
Qed.

Lemma enqueue_step s q katom :
  queue_rep cfg s q ->
  Z.of_nat (length q) < CAP ->
  exists s',
    kbasep_jm_enqueue_submit_slot cfg katom s = Done (tt, s') /\
    queue_rep cfg s' (q ++ [katom]) /\
    submitted_head s' = submitted_head s /\
    (ring_clean cfg s (Z.of_nat (length q)) ->
     ring_clean cfg s' (Z.of_nat (length (q ++ [katom])))).
Proof using cfg_ok.
  intros (Hlen & Hnr & Hle & Hcells) Hroom.
  pose proof (config_ok_slots cfg cfg_ok) as Hcap.
  pose proof (ring_index_range cfg (submitted_head s + submitted_nr s) cfg_ok) as Hpos.
  rewrite enqueue_eval by (assumption || lia).
  eexists; split; [reflexivity|].
  assert (Hsize : Z.of_nat (length (q ++ [katom])) = Z.of_nat (length q) + 1).
  { rewrite length_app. cbn. lia. }
  split; [|split; [reflexivity|]].
  - split; [cbn [submitted]; now rewrite length_insert|].
    split; [cbn [submitted_nr]; rewrite Hsize, Hnr; apply u8_small; lia|].
    split; [lia|].
    intros i a Hi. unfold ring_cell. cbn [submitted submitted_head].
    apply lookup_snoc_Some in Hi as [[Hlt Hi]|[-> ->]].
    + pose proof (ring_index_range cfg (submitted_head s + Z.of_nat i) cfg_ok).
      rewrite list_lookup_insert_ne; [exact (Hcells i a Hi)|].
      intros Heq. apply Z2Nat.inj in Heq; [|lia|lia].
      apply (ring_index_apart CAP (submitted_head s + Z.of_nat i)
               (submitted_nr s - Z.of_nat i)); [lia|].
      now replace (submitted_head s + Z.of_nat i + (submitted_nr s - Z.of_nat i))
        with (submitted_head s + submitted_nr s) by lia.
    + rewrite <- Hnr. apply list_lookup_insert_eq. lia.
  - intros Hclean i Hi. rewrite Hsize in Hi.
    unfold ring_cell. cbn [submitted submitted_head].
    pose proof (ring_index_range cfg (submitted_head s + i) cfg_ok).
    rewrite list_lookup_insert_ne; [apply Hclean; lia|].
    intros Heq. apply Z2Nat.inj in Heq; [|lia|lia].
    apply (ring_index_apart CAP (submitted_head s + submitted_nr s)
             (i - submitted_nr s)); [lia|].
    now replace (submitted_head s + submitted_nr s + (i - submitted_nr s))
      with (submitted_head s + i) by lia.
Qed.

Lemma dequeue_step s a q :
  queue_rep cfg s (a :: q) ->
  a <> NULL ->
  exists s',
    kbasep_jm_dequeue_submit_slot cfg s = Done (a, s') /\
    queue_rep cfg s' q /\
    submitted_head s' = (submitted_head s + 1) mod CAP /\
    (ring_clean cfg s (Z.of_nat (length (a :: q))) ->
     ring_clean cfg s' (Z.of_nat (length q))).
Proof using cfg_ok.
  intros (Hlen & Hnr & Hle & Hcells) Hnull.
  pose proof (config_ok_slots cfg cfg_ok) as Hcap.
  pose proof (ring_index_range cfg (submitted_head s) cfg_ok) as Hpos.
  cbn [length] in Hnr, Hle.
  rewrite (dequeue_eval cfg cfg_ok s a (Hcells 0%nat a eq_refl)).
  destruct (Z.eqb_spec a NULL); [contradiction|].
  eexists; split; [reflexivity|].
  split; [|split; [reflexivity|]].
  - split; [cbn [submitted]; now rewrite length_insert|].
    split; [cbn [submitted_nr]; rewrite Hnr; rewrite u8_small; lia|].
    split; [lia|].
    intros i b Hi. unfold ring_cell. cbn [submitted submitted_head].
    rewrite Z.add_mod_idemp_l by lia.
    apply lookup_lt_Some in Hi as Hlt.
    pose proof (Hcells (S i) b Hi) as Hb. unfold ring_cell in Hb.
    replace (submitted_head s + Z.of_nat (S i))
      with (submitted_head s + 1 + Z.of_nat i) in Hb by lia.
    pose proof (ring_index_range cfg (submitted_head s + 1 + Z.of_nat i) cfg_ok).
    rewrite list_lookup_insert_ne; [exact Hb|].
    intros Heq. apply Z2Nat.inj in Heq; [|lia|lia].
    apply (ring_index_apart CAP (submitted_head s) (1 + Z.of_nat i)); [lia|].
    now replace (submitted_head s + (1 + Z.of_nat i))
      with (submitted_head s + 1 + Z.of_nat i) by lia.
  - intros Hclean i Hi. cbn [length] in Hclean.
    unfold ring_cell. cbn [submitted submitted_head].
    rewrite Z.add_mod_idemp_l by lia.
    destruct (Z.eq_dec (i + 1) CAP) as [Hturn|Hturn].
    + replace (submitted_head s + 1 + i) with (submitted_head s + 1 * CAP) by lia.
      rewrite Z.mod_add by lia. apply list_lookup_insert_eq. lia.
    + pose proof (ring_index_range cfg (submitted_head s + 1 + i) cfg_ok).
      rewrite list_lookup_insert_ne.
      * specialize (Hclean (1 + i)). unfold ring_cell in Hclean.
        rewrite Z.add_assoc in Hclean. apply Hclean. lia.
      * intros Heq. apply Z2Nat.inj in Heq; [|lia|lia].
        apply (ring_index_apart CAP (submitted_head s) (1 + i)); [lia|].
        now replace (submitted_head s + (1 + i)) with (submitted_head s + 1 + i) by lia.
Qed.

Lemma dequeue_tail_step s q a :
  queue_rep cfg s (q ++ [a]) ->
  exists s',
    kbasep_jm_dequeue_tail_submit_slot cfg s = Done (a, s') /\
    queue_rep cfg s' q /\
    submitted s' = submitted s /\ submitted_head s' = submitted_head s.
Proof using cfg_ok.
  intros (Hlen & Hnr & Hle & Hcells).
  pose proof (config_ok_slots cfg cfg_ok) as Hcap.
  assert (Hsize : Z.of_nat (length (q ++ [a])) = Z.of_nat (length q) + 1).
  { rewrite length_app. cbn. lia. }
  rewrite Hsize in Hnr, Hle.
  assert (Hback : u8 (submitted_nr s - 1) = Z.of_nat (length q)).
  { rewrite Hnr. rewrite u8_small; lia. }
  assert (Hlast : ring_cell cfg s (Z.of_nat (length q)) = Some a).
  { apply Hcells. apply list_lookup_middle. reflexivity. }
  rewrite (dequeue_tail_eval cfg cfg_ok s a) by (rewrite Hback; exact Hlast).
  eexists; split; [reflexivity|]. split; [|split; reflexivity].
  split; [exact Hlen|]. split; [exact Hback|]. split; [lia|].
  intros i b Hi. apply (Hcells i b). now apply lookup_app_l_Some.
Qed.

Lemma peek_step s q i a :
  queue_rep cfg s q -> q !! i = Some a ->
  kbasep_jm_peek_idx_submit_slot cfg (Z.of_nat i) s = Done (a, s).
Proof using cfg_ok.
  intros (Hlen & Hnr & Hle & Hcells) Hi.
  apply lookup_lt_Some in Hi as Hlt.
  apply peek_idx_eval; [assumption|lia|now apply Hcells].
Qed.

End QueueMore.

Section QueueProperties.
Variable cfg : build_config.
Hypothesis cfg_ok : config_ok cfg.

Local Abbreviation CAP := (BASE_JM_SUBMIT_SLOTS cfg).

(** X6: on a slot whose array has [BASE_JM_SUBMIT_SLOTS] cells,
    [kbasep_jm_enqueue_submit_slot] stops at its assertion exactly when the
    slot already counts [BASE_JM_SUBMIT_SLOTS] atoms or more. *)
Theorem enqueue_asserts_room s katom :
  Z.of_nat (length (submitted s)) = CAP ->
  (kbasep_jm_enqueue_submit_slot cfg katom s = AssertFailed <-> CAP <= submitted_nr s).
Proof using cfg_ok.
  intros Hlen. split.
  - intros Hfail. destruct (Z.lt_ge_cases (submitted_nr s) CAP) as [Hlt|Hge]; [|exact Hge].
    rewrite enqueue_eval in Hfail by assumption. discriminate.
  - intros Hge. unfold kbasep_jm_enqueue_submit_slot, bind, load_nr, store_nr, OSK_ASSERT.
    destruct (Z.ltb_spec (submitted_nr s) CAP); [lia|reflexivity].
Qed.

(** X7: on a slot whose array has [BASE_JM_SUBMIT_SLOTS] cells no ring
    operation reads or writes outside the array, whatever the head, the
    count, the offset and the atom are: the mask keeps every position
    inside. *)
Theorem ring_operations_stay_in_array s katom idx :
  Z.of_nat (length (submitted s)) = CAP ->
  kbasep_jm_enqueue_submit_slot cfg katom s <> OutOfBounds /\
  kbasep_jm_dequeue_submit_slot cfg s <> OutOfBounds /\
  kbasep_jm_dequeue_tail_submit_slot cfg s <> OutOfBounds /\
  kbasep_jm_peek_idx_submit_slot cfg idx s <> OutOfBounds.
Proof using cfg_ok.
  intros Hlen. repeat split.
  - destruct (Z.lt_ge_cases (submitted_nr s) CAP) as [Hlt|Hge].
    + rewrite enqueue_eval by assumption. discriminate.
    + unfold kbasep_jm_enqueue_submit_slot, bind, load_nr, store_nr, OSK_ASSERT.
      destruct (Z.ltb_spec (submitted_nr s) CAP); [lia|discriminate].
  - destruct (ring_cell_exists cfg cfg_ok s 0 Hlen) as [a Ha].
    rewrite (dequeue_eval cfg cfg_ok s a Ha). destruct (a =? NULL); discriminate.
  - destruct (ring_cell_exists cfg cfg_ok s (u8 (submitted_nr s - 1)) Hlen) as [a Ha].
    rewrite (dequeue_tail_eval cfg cfg_ok s a Ha). discriminate.
  - destruct (Z.lt_ge_cases idx CAP) as [Hlt|Hge].
    + destruct (ring_cell_exists cfg cfg_ok s idx Hlen) as [a Ha].
      rewrite (peek_idx_eval cfg cfg_ok s idx a Hlt Ha). discriminate.
    + unfold kbasep_jm_peek_idx_submit_slot, bind, OSK_ASSERT.
      destruct (Z.ltb_spec idx CAP); [lia|discriminate].
Qed.

(** X8: on a slot counting between 1 and [BASE_JM_SUBMIT_SLOTS] atoms,
    taking the last atom back with [kbasep_jm_dequeue_tail_submit_slot] and
    enqueueing it again gives back the very same slot: array, head, count
    and soft-stop flag. *)
Theorem dequeue_tail_then_enqueue s :
  slot_wf cfg s ->
  0 < submitted_nr s <= CAP ->
  exists katom s1,
    kbasep_jm_dequeue_tail_submit_slot cfg s = Done (katom, s1) /\
    kbasep_jm_enqueue_submit_slot cfg katom s1 = Done (tt, s).
Proof using cfg_ok.
  intros (Hlen & Hhead & Hnr) Hcount.
  pose proof (config_ok_slots cfg cfg_ok) as Hcap.
  assert (Hback : u8 (submitted_nr s - 1) = submitted_nr s - 1) by (apply u8_small; lia).
  destruct (ring_cell_exists cfg cfg_ok s (submitted_nr s - 1) Hlen) as [a Ha].
  unfold ring_cell in Ha.
  exists a. eexists. split.
  - apply dequeue_tail_eval; [assumption|]. rewrite Hback. exact Ha.
  - rewrite enqueue_eval; cbn [submitted submitted_head submitted_nr
      submission_blocked_for_soft_stop]; [|assumption|assumption|lia].
    rewrite Hback, (list_insert_id _ _ _ Ha).
    replace (submitted_nr s - 1 + 1) with (submitted_nr s) by lia.
    rewrite u8_small by lia. now destruct s.
Qed.

(** X9: on a slot with room left, [kbasep_jm_enqueue_submit_slot] puts the
    atom behind the atoms the slot tracks and leaves those in place. *)
Theorem enqueue_appends s katom :
  Z.of_nat (length (submitted s)) = CAP ->
  0 <= submitted_nr s < CAP ->
  exists s',
    kbasep_jm_enqueue_submit_slot cfg katom s = Done (tt, s') /\
    queue_contents cfg s' = queue_contents cfg s ++ [katom].
Proof using cfg_ok.
  intros Hlen Hnr.
  assert (Hrep : queue_rep cfg s (queue_contents cfg s)) by (apply contents_rep; [assumption..|lia]).
  destruct (enqueue_step cfg cfg_ok s _ katom Hrep) as (s' & Hrun & Hrep' & _).
  { destruct Hrep as (_ & <- & _). lia. }
  exists s'. split; [exact Hrun|]. now apply queue_rep_contents.
Qed.

(** X10: on a slot within capacity whose oldest atom is not [NULL],
    [kbasep_jm_dequeue_submit_slot] returns the oldest atom and leaves the
    other atoms in their order. *)
Theorem dequeue_pops_oldest s katom rest :
  Z.of_nat (length (submitted s)) = CAP ->
  0 <= submitted_nr s <= CAP ->
  queue_contents cfg s = katom :: rest ->
  katom <> NULL ->
  exists s',
    kbasep_jm_dequeue_submit_slot cfg s = Done (katom, s') /\
    queue_contents cfg s' = rest.
Proof using cfg_ok.
  intros Hlen Hnr Hq Hnull.
  assert (Hrep : queue_rep cfg s (katom :: rest)) by (rewrite <- Hq; now apply contents_rep).
  destruct (dequeue_step cfg cfg_ok s katom rest Hrep Hnull) as (s' & Hrun & Hrep' & _).
  exists s'. split; [exact Hrun|]. now apply queue_rep_contents.
Qed.

(** X11: on a slot within capacity, [kbasep_jm_dequeue_tail_submit_slot]
    returns the atom enqueued last and leaves the older atoms in their
    order. *)
Theorem dequeue_tail_pops_newest s older katom :
  Z.of_nat (length (submitted s)) = CAP ->
  0 <= submitted_nr s <= CAP ->
  queue_contents cfg s = older ++ [katom] ->
  exists s',
    kbasep_jm_dequeue_tail_submit_slot cfg s = Done (katom, s') /\
    queue_contents cfg s' = older.
Proof using cfg_ok.
  intros Hlen Hnr Hq.
  assert (Hrep : queue_rep cfg s (older ++ [katom])) by (rewrite <- Hq; now apply contents_rep).
  destruct (dequeue_tail_step cfg cfg_ok s older katom Hrep) as (s' & Hrun & Hrep' & _).
  exists s'. split; [exact Hrun|]. now apply queue_rep_contents.
Qed.

(** X12: on a slot within capacity, [kbasep_jm_peek_idx_submit_slot] at an
    offset below the count returns the atom at that place of the queue,
    counted from the oldest, and leaves the slot as it is. *)
Theorem peek_idx_reads_queue s i katom :
  Z.of_nat (length (submitted s)) = CAP ->
  0 <= submitted_nr s <= CAP ->
  queue_contents cfg s !! i = Some katom ->
  kbasep_jm_peek_idx_submit_slot cfg (Z.of_nat i) s = Done (katom, s).
Proof using cfg_ok.
  intros Hlen Hnr Hi.
  apply (peek_step cfg cfg_ok s (queue_contents cfg s)); [|exact Hi].
  now apply contents_rep.
Qed.

End QueueProperties.

(** ** First in, first out *)

Lemma enqueued_atoms_length ops : Z.of_nat (length (enqueued_atoms ops)) = enqueues ops.
Proof.
  induction ops as [|[katom|] rest IH]; cbn [enqueued_atoms enqueues length]; lia.
Qed.

Section Fifo.
Variable cfg : build_config.
Hypothesis cfg_ok : config_ok cfg.

Local Abbreviation CAP := (BASE_JM_SUBMIT_SLOTS cfg).

(** What a sequence does to a slot holding the queue [q]. *)
Lemma run_ops_out_step ops : forall s q,
  queue_rep cfg s q ->
  Forall (fun a => a <> NULL) q ->
  respects_capacity CAP (Z.of_nat (length q)) ops = true ->
  atoms_non_null ops = true ->
  exists out s' q',
    run_ops_out cfg ops s = Done (out, s') /\
    queue_rep cfg s' q' /\
    q ++ enqueued_atoms ops = out ++ q' /\
    Z.of_nat (length out) = dequeues ops /\
    (0 <= submitted_head s < CAP ->
     submitted_head s' = (submitted_head s + dequeues ops) mod CAP) /\
    (ring_clean cfg s (Z.of_nat (length q)) -> ring_clean cfg s' (Z.of_nat (length q'))).
Proof using cfg_ok.
  pose proof (config_ok_slots cfg cfg_ok) as Hslots.
  induction ops as [|o rest IH]; intros s q Hrep Hq Hcap Hatoms.
  - exists [], s, q. cbn [run_ops_out enqueued_atoms dequeues length].
    rewrite app_nil_r, Z.add_0_r.
    split; [reflexivity|]. split; [exact Hrep|]. split; [reflexivity|].
    split; [reflexivity|]. split; [|auto].
    intros Hhead. symmetry. now apply Z.mod_small.
  - destruct o as [katom|]; cbn [respects_capacity atoms_non_null forallb] in Hcap, Hatoms;
      apply andb_prop in Hcap as [Hnow Hrest].
    + apply andb_prop in Hatoms as [Hkatom Hatoms].
      apply Z.ltb_lt in Hnow. apply negb_true_iff, Z.eqb_neq in Hkatom.
      destruct (enqueue_step cfg cfg_ok s q katom Hrep Hnow)
        as (s1 & Hrun & Hrep1 & Hhead1 & Hclean1).
      assert (Hsize : Z.of_nat (length (q ++ [katom])) = Z.of_nat (length q) + 1).
      { rewrite length_app. cbn. lia. }
      destruct (IH s1 (q ++ [katom]) Hrep1) as (out & s' & q' & Hrun' & Hrep' & Hfifo & Hout & Hhead & Hclean).
      { apply Forall_app. split; [exact Hq|]. now constructor. }
      { now rewrite Hsize. }
      { exact Hatoms. }
      exists out, s', q'. cbn [run_ops_out enqueued_atoms dequeues].
      unfold bind at 1. rewrite Hrun.
      split; [exact Hrun'|]. split; [exact Hrep'|].
      split; [now rewrite <- Hfifo, <- app_assoc|].
      split; [exact Hout|]. split; [|auto].
      intros Hrange. rewrite Hhead, Hhead1 by (rewrite Hhead1; exact Hrange). reflexivity.
    + apply Z.ltb_lt in Hnow.
      destruct q as [|a q]; [cbn in Hnow; lia|].
      apply Forall_cons in Hq as [Ha Hq].
      destruct (dequeue_step cfg cfg_ok s a q Hrep Ha)
        as (s1 & Hrun & Hrep1 & Hhead1 & Hclean1).
      destruct (IH s1 q Hrep1 Hq) as (out & s' & q' & Hrun' & Hrep' & Hfifo & Hout & Hhead & Hclean).
      { replace (Z.of_nat (length q)) with (Z.of_nat (length (a :: q)) - 1)
          by (cbn [length]; lia). exact Hrest. }
      { exact Hatoms. }
      exists (a :: out), s', q'. cbn [run_ops_out enqueued_atoms dequeues].
      unfold bind at 1. rewrite Hrun. unfold bind at 1. rewrite Hrun'.
      split; [reflexivity|]. split; [exact Hrep'|].
      split; [cbn; now rewrite <- Hfifo|].
      split; [cbn [length]; lia|].
      split; [|auto].
      intros Hrange. rewrite Hhead by (rewrite Hhead1; now apply ring_index_range).
      rewrite Hhead1, Z.add_mod_idemp_l by lia. f_equal. lia.
Qed.

(** X13: first in, first out. From a slot initialised by
    [kbasep_jm_init_submit_slot], a sequence of enqueues of atoms and of
    front dequeues that respects the capacity runs to its end, and the
    atoms the dequeues returned, followed by the atoms the slot still
    tracks, are the atoms that were enqueued, in the order they were
    enqueued. *)
Theorem dequeues_return_atoms_in_order s0 ops :
  Z.of_nat (length (submitted s0)) = CAP ->
  respects_capacity CAP 0 ops = true ->
  atoms_non_null ops = true ->
  exists out s',
    bind (kbasep_jm_init_submit_slot cfg) (fun _ => run_ops_out cfg ops) s0
    = Done (out, s') /\
    out ++ queue_contents cfg s' = enqueued_atoms ops /\
    Z.of_nat (length out) = dequeues ops.
Proof using cfg_ok.
  intros Hlen Hcap Hatoms.
  destruct (init_step cfg cfg_ok s0 Hlen) as (s1 & Hinit & Hrep1 & _).
  destruct (run_ops_out_step ops s1 [] Hrep1 (Forall_nil_2 _) Hcap Hatoms)
    as (out & s' & q' & Hrun & Hrep' & Hfifo & Hout & _).
  exists out, s'. unfold bind. rewrite Hinit.
  split; [exact Hrun|]. split; [|exact Hout].
  now rewrite (queue_rep_contents cfg s' q' Hrep'), <- Hfifo.
Qed.

(** X14: after such a sequence [submitted_head] is the number of front
    dequeues modulo [BASE_JM_SUBMIT_SLOTS]: the head goes round the ring
    once every [BASE_JM_SUBMIT_SLOTS] completions. *)
Theorem head_counts_dequeues s0 ops :
  Z.of_nat (length (submitted s0)) = CAP ->
  respects_capacity CAP 0 ops = true ->
  atoms_non_null ops = true ->
  exists out s',
    bind (kbasep_jm_init_submit_slot cfg) (fun _ => run_ops_out cfg ops) s0
    = Done (out, s') /\
    submitted_head s' = dequeues ops mod CAP.
Proof using cfg_ok.
  intros Hlen Hcap Hatoms.
  pose proof (config_ok_slots cfg cfg_ok) as Hslots.
  destruct (init_step cfg cfg_ok s0 Hlen) as (s1 & Hinit & Hrep1 & _ & Hhead1).
  destruct (run_ops_out_step ops s1 [] Hrep1 (Forall_nil_2 _) Hcap Hatoms)
    as (out & s' & q' & Hrun & _ & _ & _ & Hhead & _).
  exists out, s'. unfold bind. rewrite Hinit.
  split; [exact Hrun|]. rewrite Hhead by lia. now rewrite Hhead1.
Qed.

(** X16: on memory that was cleared, once such a sequence has dequeued
    every atom it enqueued, a further [kbasep_jm_dequeue_submit_slot] stops
    at its assertion: the cell at the head holds [NULL]. *)
Theorem dequeue_of_drained_slot_asserts s0 ops :
  Z.of_nat (length (submitted s0)) = CAP ->
  Forall (fun a => a = NULL) (submitted s0) ->
  respects_capacity CAP 0 ops = true ->
  atoms_non_null ops = true ->
  enqueues ops = dequeues ops ->
  bind (kbasep_jm_init_submit_slot cfg) (fun _ =>
  bind (run_ops_out cfg ops) (fun _ =>
  kbasep_jm_dequeue_submit_slot cfg)) s0 = AssertFailed.
Proof using cfg_ok.
  intros Hlen Hnull Hcap Hatoms Hdrained.
  destruct (init_step cfg cfg_ok s0 Hlen) as (s1 & Hinit & Hrep1 & Hbuf1 & Hhead1).
  assert (Hclean1 : ring_clean cfg s1 (Z.of_nat (length (@nil Z)))).
  { intros i Hi.
    destruct (ring_cell_exists cfg cfg_ok s1 i) as [a Ha]; [now rewrite Hbuf1|].
    rewrite Ha. f_equal. unfold ring_cell in Ha. rewrite Hbuf1 in Ha.
    exact (proj1 (Forall_lookup _ _) Hnull _ _ Ha). }
  destruct (run_ops_out_step ops s1 [] Hrep1 (Forall_nil_2 _) Hcap Hatoms)
    as (out & s' & q' & Hrun & Hrep' & Hfifo & Hout & _ & Hclean).
  assert (Hempty : q' = []).
  { apply (f_equal (fun l => Z.of_nat (length l))) in Hfifo.
    cbn [app] in Hfifo. rewrite length_app, enqueued_atoms_length in Hfifo.
    destruct q'; [reflexivity|]. cbn [length] in Hfifo. lia. }
  subst q'. specialize (Hclean Hclean1). cbn [length] in Hclean.
  pose proof (config_ok_slots cfg cfg_ok) as Hslots.
  unfold bind at 1. rewrite Hinit. unfold bind at 1. rewrite Hrun.
  rewrite (dequeue_eval cfg cfg_ok s' NULL); [reflexivity|].
  apply Hclean. lia.
Qed.

(** X17: on memory that was cleared, after such a sequence a peek at an
    offset from the count on, below [BASE_JM_SUBMIT_SLOTS], returns [NULL]:
    no atom that left the queue by the front is seen again. *)
Theorem peek_past_count_on_cleared_memory s0 ops idx :
  Z.of_nat (length (submitted s0)) = CAP ->
  Forall (fun a => a = NULL) (submitted s0) ->
  respects_capacity CAP 0 ops = true ->
  atoms_non_null ops = true ->
  enqueues ops - dequeues ops <= idx < CAP ->
  exists out s',
    bind (kbasep_jm_init_submit_slot cfg) (fun _ => run_ops_out cfg ops) s0
    = Done (out, s') /\
    submitted_nr s' = enqueues ops - dequeues ops /\
    kbasep_jm_peek_idx_submit_slot cfg idx s' = Done (NULL, s').
Proof using cfg_ok.
  intros Hlen Hnull Hcap Hatoms Hidx.
  destruct (init_step cfg cfg_ok s0 Hlen) as (s1 & Hinit & Hrep1 & Hbuf1 & Hhead1).
  assert (Hclean1 : ring_clean cfg s1 (Z.of_nat (length (@nil Z)))).
  { intros i Hi.
    destruct (ring_cell_exists cfg cfg_ok s1 i) as [a Ha]; [now rewrite Hbuf1|].
    rewrite Ha. f_equal. unfold ring_cell in Ha. rewrite Hbuf1 in Ha.
    exact (proj1 (Forall_lookup _ _) Hnull _ _ Ha). }
  destruct (run_ops_out_step ops s1 [] Hrep1 (Forall_nil_2 _) Hcap Hatoms)
    as (out & s' & q' & Hrun & Hrep' & Hfifo & Hout & _ & Hclean).
  assert (Hcount : Z.of_nat (length q') = enqueues ops - dequeues ops).
  { apply (f_equal (fun l => Z.of_nat (length l))) in Hfifo.
    cbn [app] in Hfifo. rewrite length_app, enqueued_atoms_length in Hfifo. lia. }
  specialize (Hclean Hclean1).
  exists out, s'. unfold bind. rewrite Hinit.
  split; [exact Hrun|]. split.
  - destruct Hrep' as (_ & -> & _). exact Hcount.
  - apply peek_idx_eval; [assumption|lia|]. apply Hclean. lia.
Qed.

End Fifo.

Lemma enqueue_asserts_room_witness :
  kbasep_jm_enqueue_submit_slot cfg_r0p0 5 full_slot = AssertFailed <->
  BASE_JM_SUBMIT_SLOTS cfg_r0p0 <= submitted_nr full_slot.
Proof.
  apply enqueue_asserts_room.
  - exists 2. repeat split; cbn; lia.
  - reflexivity.
Defined.

Lemma ring_operations_stay_in_array_witness :
  kbasep_jm_enqueue_submit_slot cfg_r0p0 5 wrapped_slot <> OutOfBounds /\
  kbasep_jm_dequeue_submit_slot cfg_r0p0 wrapped_slot <> OutOfBounds /\
  kbasep_jm_dequeue_tail_submit_slot cfg_r0p0 wrapped_slot <> OutOfBounds /\
  kbasep_jm_peek_idx_submit_slot cfg_r0p0 2 wrapped_slot <> OutOfBounds.
Proof.
  apply ring_operations_stay_in_array.
  - exists 2. repeat split; cbn; lia.
  - reflexivity.
Defined.

Lemma dequeue_tail_then_enqueue_witness :
  exists katom s1,
    kbasep_jm_dequeue_tail_submit_slot cfg_r0p0 wrapped_slot = Done (katom, s1) /\
    kbasep_jm_enqueue_submit_slot cfg_r0p0 katom s1 = Done (tt, wrapped_slot).
Proof.
  apply dequeue_tail_then_enqueue.
  - exists 2. repeat split; cbn; lia.
  - repeat split; cbn; lia.
  - cbn; lia.
Defined.

Lemma enqueue_appends_witness :
  exists s',
    kbasep_jm_enqueue_submit_slot cfg_r0p0 5 wrapped_slot = Done (tt, s') /\
    queue_contents cfg_r0p0 s' = queue_contents cfg_r0p0 wrapped_slot ++ [5].
Proof.
  apply enqueue_appends.
  - exists 2. repeat split; cbn; lia.
  - reflexivity.
  - cbn; lia.
Defined.

Lemma dequeue_pops_oldest_witness :
  exists s',
    kbasep_jm_dequeue_submit_slot cfg_r0p0 wrapped_slot = Done (7, s') /\
    queue_contents cfg_r0p0 s' = [8; 9].
Proof.
  apply dequeue_pops_oldest.
  - exists 2. repeat split; cbn; lia.
  - reflexivity.
  - cbn; lia.
  - reflexivity.
  - unfold NULL. lia.
Defined.

Lemma dequeue_tail_pops_newest_witness :
  exists s',
    kbasep_jm_dequeue_tail_submit_slot cfg_r0p0 wrapped_slot = Done (9, s') /\
    queue_contents cfg_r0p0 s' = [7; 8].
Proof.
  apply dequeue_tail_pops_newest.
  - exists 2. repeat split; cbn; lia.
  - reflexivity.
  - cbn; lia.
  - reflexivity.
Defined.

Lemma peek_idx_reads_queue_witness :
  kbasep_jm_peek_idx_submit_slot cfg_r0p0 (Z.of_nat 1) wrapped_slot = Done (8, wrapped_slot).
Proof.
  apply peek_idx_reads_queue.
  - exists 2. repeat split; cbn; lia.
  - reflexivity.
  - cbn; lia.
  - reflexivity.
Defined.

Lemma dequeues_return_atoms_in_order_witness :
  exists out s',
    bind (kbasep_jm_init_submit_slot cfg_r0p0) (fun _ => run_ops_out cfg_r0p0 sample_ops)
      fresh_slot = Done (out, s') /\
    out ++ queue_contents cfg_r0p0 s' = enqueued_atoms sample_ops /\
    Z.of_nat (length out) = dequeues sample_ops.
Proof.
  apply dequeues_return_atoms_in_order.
  - exists 2. repeat split; cbn; lia.
  - reflexivity.
  - reflexivity.
  - reflexivity.
Defined.

Lemma head_counts_dequeues_witness :
  exists out s',
    bind (kbasep_jm_init_submit_slot cfg_r0p0) (fun _ => run_ops_out cfg_r0p0 sample_ops)
      fresh_slot = Done (out, s') /\
    submitted_head s' = dequeues sample_ops mod BASE_JM_SUBMIT_SLOTS cfg_r0p0.
Proof.
  apply head_counts_dequeues.
  - exists 2. repeat split; cbn; lia.
  - reflexivity.
  - reflexivity.
  - reflexivity.
Defined.

Lemma dequeue_of_drained_slot_asserts_witness :
  bind (kbasep_jm_init_submit_slot cfg_r0p0) (fun _ =>
  bind (run_ops_out cfg_r0p0 drained_ops) (fun _ =>
  kbasep_jm_dequeue_submit_slot cfg_r0p0)) fresh_slot = AssertFailed.
Proof.
  apply dequeue_of_drained_slot_asserts.
  - exists 2. repeat split; cbn; lia.
  - reflexivity.
  - repeat constructor.
  - reflexivity.
  - reflexivity.
  - reflexivity.
Defined.

Lemma peek_past_count_on_cleared_memory_witness :
  exists out s',
    bind (kbasep_jm_init_submit_slot cfg_r0p0) (fun _ => run_ops_out cfg_r0p0 sample_ops)
      fresh_slot = Done (out, s') /\
    submitted_nr s' = enqueues sample_ops - dequeues sample_ops /\
    kbasep_jm_peek_idx_submit_slot cfg_r0p0 3 s' = Done (NULL, s').
Proof.
  apply peek_past_count_on_cleared_memory.
  - exists 2. repeat split; cbn; lia.
  - reflexivity.
  - repeat constructor.
  - reflexivity.
  - reflexivity.
  - cbn; lia.
Defined.

(** ** The slot locks *)

(** X15: [kbase_job_slot_lock] returns the slot it was asked for, and
    [kbase_job_slot_unlock] releases the lock that [kbase_job_slot_lock]
    took exactly when both name the same slot or the build has
    [BASE_HW_ISSUE_7347], where all slots share [kbdev->jm_slot_lock]. *)
Theorem slot_lock_and_unlock_pair (BASE_HW_ISSUE_7347 : bool) (js js' : Z) (t : list osk_call) :
  exists l l',
    bind (kbase_job_slot_lock BASE_HW_ISSUE_7347 js) (fun slot =>
    bind (kbase_job_slot_unlock BASE_HW_ISSUE_7347 js') (fun _ => ret slot)) t
    = Done (js, t ++ [osk_spinlock_irq_lock l; osk_spinlock_irq_unlock l']) /\
    (l = l' <-> BASE_HW_ISSUE_7347 = true \/ js = js').
Proof.
  unfold kbase_job_slot_lock, kbase_job_slot_unlock, bind, call_osk, ret.
  destruct BASE_HW_ISSUE_7347.
  - exists jm_slot_lock, jm_slot_lock. rewrite <- app_assoc. split; [reflexivity|].
    split; auto.
  - exists (jm_slots_lock js), (jm_slots_lock js'). rewrite <- app_assoc.
    split; [reflexivity|]. split.
    + intros [= ->]. now right.
    + intros [Hb| ->]; [discriminate|reflexivity].
Qed.
